(** * Rooftop segmentation: the visualisation script, embedded in Rocq

    A shallow embedding of [visualize_results.py]: the rasteriser
    ([create_mask_from_polygons]), the statistics reduction
    ([analyze_dataset_stats]) and the sample grid
    ([visualize_sample_masks]).

    Python values are the values [json.load] produces.  Exceptions are
    explicit: a computation returns [Ok v] or [Raise e].  What the script
    obtains from libraries and from the disk (the file contents, the text
    to integer conversion of [int], the polygon rasteriser of PIL, the
    mean of NumPy, the directory listing, the draws of the random
    generator) is a variable of the section that uses it, so every
    statement holds for all of them.  The lines the script prints and its
    calls on the figure as a whole can raise as well; they are in the
    versions of the functions whose names end in [_console], and left out of
    the others, which give the values the functions compute. *)

From Stdlib Require Import ZArith String Ascii.
From Stdlib Require Import SpecFloat.
From stdpp Require Import base list.

Local Open Scope Z_scope.

(** ** Exceptions and results *)

Inductive pyexc :=
| KeyError | TypeError | ValueError | AttributeError
| OverflowError | IndexError | OSError
| OtherException (name : string).

Inductive result (A : Type) :=
| Ok (a : A)
| Raise (e : pyexc).
Arguments Ok {A} a.
Arguments Raise {A} e.

#[global] Instance result_ret : MRet result := fun A a => Ok a.
#[global] Instance result_bind : MBind result := fun A B f m =>
  match m with
  | Ok a => f a
  | Raise e => Raise e
  end.

Definition raises {A} (m : result A) : Prop := exists e, m = Raise e.

(** ** Python values, as [json.load] builds them *)

(** A [str] is its sequence of code points. *)
Definition pystr := list N.

Definition py (s : string) : pystr :=
  (fun a => N_of_ascii a) <$> list_ascii_of_string s.

(** A [dict] is its items in insertion order; its keys are distinct. *)
#[warnings="-register-all"]
Inductive json :=
| JNull
| JBool (b : bool)
| JInt (z : Z)
| JFloat (f : spec_float)
| JStr (s : pystr)
| JArr (l : list json)
| JObj (items : list (pystr * json)).

Fixpoint dict_lookup (items : list (pystr * json)) (k : pystr) : option json :=
  match items with
  | [] => None
  | (k', v) :: rest => if bool_decide (k' = k) then Some v else dict_lookup rest k
  end.

(** [d.get(k, default)] *)
Definition py_get (d : json) (k : pystr) (dflt : json) : result json :=
  match d with
  | JObj items => Ok (default dflt (dict_lookup items k))
  | _ => Raise AttributeError
  end.

(** [v[k]] for a string key [k]: only a [dict] can be indexed by a string. *)
Definition py_getitem (v : json) (k : pystr) : result json :=
  match v with
  | JObj items =>
      match dict_lookup items k with
      | Some x => Ok x
      | None => Raise KeyError
      end
  | _ => Raise TypeError
  end.

(** [v == s] for a string literal [s]: a value of another type is not
    equal to it, and the comparison never raises. *)
Definition py_eq_str (v : json) (s : pystr) : bool :=
  match v with
  | JStr t => bool_decide (t = s)
  | _ => false
  end.

(** The elements [iter(v)] yields: a list gives its elements, a dict its
    keys, a string its characters. *)
Definition py_iter (v : json) : result (list json) :=
  match v with
  | JArr l => Ok l
  | JObj items => Ok ((fun kv => JStr kv.1) <$> items)
  | JStr s => Ok ((fun c => JStr [c]) <$> s)
  | _ => Raise TypeError
  end.

(** [len(v)] *)
Definition py_len (v : json) : result Z :=
  match v with
  | JArr l => Ok (Z.of_nat (length l))
  | JObj items => Ok (Z.of_nat (length items))
  | JStr s => Ok (Z.of_nat (length s))
  | _ => Raise TypeError
  end.

(** [x, y = v] *)
Definition py_unpack2 (v : json) : result (json * json) :=
  l ← py_iter v;
  match l with
  | [x; y] => Ok (x, y)
  | _ => Raise ValueError
  end.

(** [int(f)] for a float: truncation towards zero. *)
Definition int_of_float (f : spec_float) : result Z :=
  match f with
  | S754_zero _ => Ok 0
  | S754_infinity _ => Raise OverflowError
  | S754_nan => Raise ValueError
  | S754_finite s m e =>
      let a := if 0 <=? e then Z.pos m * 2 ^ e else Z.pos m / 2 ^ (- e) in
      Ok (if s then - a else a)
  end.

(** ** Images *)

Definition rgb := (Z * Z * Z)%type.

(** An RGB image: its pixels by rows. A width or a height is a natural
    number (the library refuses a negative one). *)
Record image := {
  img_width : nat;
  img_height : nat;
  img_rows : list (list rgb)
}.

(** [Image.new('RGB', size, color)] *)
Definition Image_new (size : nat * nat) (color : rgb) : image :=
  {| img_width := size.1;
     img_height := size.2;
     img_rows := replicate size.2 (replicate size.1 color) |}.

Definition getpixel (im : image) (x y : nat) : option rgb :=
  row ← img_rows im !! y; row !! x.

Definition black : rgb := (0, 0, 0).
Definition white : rgb := (255, 255, 255).

Definition colors : list rgb :=
  [(255, 0, 0); (0, 255, 0); (0, 0, 255); (255, 255, 0); (255, 0, 255); (0, 255, 255)].

(** [l[i]] for a list and a non-negative index. *)
Definition py_index {A} (l : list A) (i : nat) : result A :=
  match l !! i with
  | Some x => Ok x
  | None => Raise IndexError
  end.

(** [for i, x in enumerate(l): s = body(i, x, s)], counting from [i]. *)
Fixpoint for_enumerate {A St} (body : nat -> A -> St -> result St)
    (i : nat) (l : list A) (s : St) : result St :=
  match l with
  | [] => Ok s
  | x :: rest => s' ← body i x s; for_enumerate body (S i) rest s'
  end.

Definition default_image_size : nat * nat := (1024%nat, 1024%nat).

(** ** The rasteriser *)

Section Rasterizer.

(** [int(s)] for a string [s]. *)
Variable int_of_str : pystr -> result Z.

(** [ImageDraw.Draw(im).polygon(points, fill=fill, outline=outline)]:
    the image after the call. *)
Variable draw_polygon : image -> list (Z * Z) -> rgb -> rgb -> result image.

(** [int(v)] *)
Definition py_int (v : json) : result Z :=
  match v with
  | JInt z => Ok z
  | JBool b => Ok (if b then 1 else 0)
  | JFloat f => int_of_float f
  | JStr s => int_of_str s
  | _ => Raise TypeError
  end.

(** One element of [[(int(x), int(y)) for x, y in ...]]. *)
Definition point_of (entry : json) : result (Z * Z) :=
  '(x, y) ← py_unpack2 entry;
  a ← py_int x;
  b ← py_int y;
  mret (a, b).

(** [[(int(x), int(y)) for x, y in v]] *)
Definition points_of (v : json) : result (list (Z * Z)) :=
  entries ← py_iter v;
  mapM point_of entries.

(** The body of the loop over [enumerate(shapes)]. *)
Definition draw_shape (i : nat) (shape : json) (mask_image : image) : result image :=
  shape_type ← py_getitem shape (py "shape_type");
  if py_eq_str shape_type (py "polygon") then
    pv ← py_getitem shape (py "points");
    points ← points_of pv;
    color ← py_index colors (i mod length colors);
    if bool_decide (3 <= length points)%nat then
      draw_polygon mask_image points color white
    else Ok mask_image
  else Ok mask_image.

Definition create_mask_from_polygons (mask_data : json) (image_size : nat * nat)
    : result image :=
  let mask_image := Image_new image_size black in
  shapes_v ← py_get mask_data (py "shapes") (JArr []);
  shapes ← py_iter shapes_v;
  for_enumerate draw_shape 0 shapes mask_image.

End Rasterizer.

(** ** What the rasteriser sees in a shape *)

Section Shapes.

Variable int_of_str : pystr -> result Z.

(** The shape has a type tag, [shape['shape_type']]. *)
Definition shape_type_is (shape st : json) : Prop :=
  py_getitem shape (py "shape_type") = Ok st.

(** The shape has the points [pts]: [shape['points']] is a sequence of
    pairs that convert to integers. *)
Definition shape_points_are (shape : json) (pts : list (Z * Z)) : Prop :=
  exists pv, py_getitem shape (py "points") = Ok pv /\
             points_of int_of_str pv = Ok pts.

(** The two kinds of shape the specification calls skipped: a type tag
    other than ["polygon"], or a polygon of fewer than 3 points. *)
Definition skipped_shape (shape : json) : Prop :=
  exists st, shape_type_is shape st /\
    (py_eq_str st (py "polygon") = false \/
     exists pts, shape_points_are shape pts /\ (length pts < 3)%nat).

(** A shape without the [shape_type] key. *)
Definition lacks_shape_type (shape : json) : Prop :=
  exists items, shape = JObj items /\ dict_lookup items (py "shape_type") = None.

(** An entry of [points] that is not a sequence of exactly two elements. *)
Definition not_a_pair (entry : json) : Prop :=
  forall x y, py_iter entry <> Ok [x; y].

(** A polygon whose [points] list has an entry that is not a pair. *)
Definition has_bad_point (shape : json) : Prop :=
  exists items entries entry,
    shape = JObj items /\
    dict_lookup items (py "shape_type") = Some (JStr (py "polygon")) /\
    dict_lookup items (py "points") = Some (JArr entries) /\
    entry ∈ entries /\ not_a_pair entry.

End Shapes.

(** ** Sampling without replacement *)

Section Sampling.

(** The value behind the [i]-th call of the generator's [_randbelow];
    [randbelow i b] is what the call returns for the bound [b]. *)
Variable draws : nat -> nat.

Definition randbelow (i b : nat) : nat := (draws i mod b)%nat.

(** The loop of [random.sample] over its pool:
    [j = randbelow(n - i); result[i] = pool[j]; pool[j] = pool[n - i - 1]]. *)
Fixpoint sample_loop {A} (n i steps : nat) (pool : list A) : result (list A) :=
  match steps with
  | O => Ok []
  | S steps' =>
      let j := randbelow i (n - i) in
      x ← py_index pool j;
      y ← py_index pool (n - i - 1);
      rest ← sample_loop n (S i) steps' (<[j := y]> pool);
      mret (x :: rest)
  end.

(** [random.sample(population, k)]: the first [k] entries of a shuffle of
    the population, by the loop the library runs over a copy of it. (Over a
    large population the library draws positions and rejects the repeated
    ones instead; what it returns is of the same kind.) *)
Definition random_sample {A} (population : list A) (k : Z) : result (list A) :=
  let n := length population in
  if bool_decide (0 <= k <= Z.of_nat n) then
    sample_loop n 0 (Z.to_nat k) population
  else Raise ValueError.

End Sampling.

(** ** Statistics and the sample grid *)

(** A number the script returns: an [int], or the float of [np.mean]. *)
Inductive pynum (F : Type) :=
| PyInt (z : Z)
| PyFloat (f : F).
Arguments PyInt {F} z.
Arguments PyFloat {F} f.

Record stats (F : Type) := {
  total_tiles : Z;
  total_buildings : Z;
  avg_buildings_per_tile : pynum F;
  max_buildings_per_tile : Z;
  min_buildings_per_tile : Z
}.
Arguments total_tiles {F} s.
Arguments total_buildings {F} s.
Arguments avg_buildings_per_tile {F} s.
Arguments max_buildings_per_tile {F} s.
Arguments min_buildings_per_tile {F} s.

(** [max(l)] and [min(l)] *)
Definition py_max (l : list Z) : result Z :=
  match l with
  | [] => Raise ValueError
  | x :: rest => Ok (fold_left Z.max rest x)
  end.

Definition py_min (l : list Z) : result Z :=
  match l with
  | [] => Raise ValueError
  | x :: rest => Ok (fold_left Z.min rest x)
  end.

(** The truth value of a list. *)
Definition py_bool_list {A} (l : list A) : bool :=
  match l with
  | [] => false
  | _ => true
  end.

(** What the script does to one cell of the grid. *)
Inductive axes_call (P : Type) :=
| Imshow (im : image)
| SetTitle (mask_file : P)
| AxisOff
| TextBuildings (num_buildings : Z)
| TextError (mask_file : P).
Arguments Imshow {P} im.
Arguments SetTitle {P} mask_file.
Arguments AxisOff {P}.
Arguments TextBuildings {P} num_buildings.
Arguments TextError {P} mask_file.

(** The figure: the calls made on its cells [(row, col)], in order. *)
Definition figure (P : Type) := list (nat * nat * axes_call P).

(** Plotting code: it changes the figure and returns or raises. *)
Definition plot (P A : Type) := figure P -> figure P * result A.

#[global] Instance plot_ret {P} : MRet (plot P) := fun A a fig => (fig, Ok a).
#[global] Instance plot_bind {P} : MBind (plot P) := fun A B f m fig =>
  match m fig with
  | (fig', Ok a) => f a fig'
  | (fig', Raise e) => (fig', Raise e)
  end.

(** Code that does not touch the figure. *)
Definition pure_call {P A} (r : result A) : plot P A := fun fig => (fig, r).

(** [try: body except Exception as e: handler] *)
Definition try_except {P A} (body : plot P A) (handler : pyexc -> plot P A) : plot P A :=
  fun fig =>
    match body fig with
    | (fig', Ok a) => (fig', Ok a)
    | (fig', Raise e) => handler e fig'
    end.

(** [axes[row, col].call(...)] on the 2 by 3 grid. *)
Definition axes_at {P} (row col : nat) (c : axes_call P) : plot P () :=
  fun fig =>
    if bool_decide (row < 2 /\ col < 3)%nat then (fig ++ [(row, col, c)], Ok ())
    else (fig, Raise IndexError).

(** The files a figure shows, by their titles and error texts. *)
Definition shown_files {P} (fig : figure P) : list P :=
  omap (fun cell =>
          match cell.2 with
          | SetTitle f => Some f
          | TextError f => Some f
          | _ => None
          end) fig.

Section Dataset.

Variable int_of_str : pystr -> result Z.
Variable draw_polygon : image -> list (Z * Z) -> rgb -> rgb -> result image.

(** The files of the disk. *)
Variable path : Type.

(** [list((Path(data_dir) / 'masks' / 's1024_z19' / 'train').glob('*.json'))] *)
Variable glob_json : string -> list path.

(** [open(p, 'r')] followed by reading the file, and the parser of [json]. *)
Variable read_text : path -> result pystr.
Variable json_loads : pystr -> result json.

(** [np.mean] of a list of integers. *)
Variable float : Type.
Variable np_mean : list Z -> float.

(** The draws of the random generator. *)
Variable draws : nat -> nat.

Definition load_mask_data (mask_file_path : path) : result json :=
  text ← read_text mask_file_path;
  json_loads text.

(** [len(mask_data.get('shapes', []))] *)
Definition num_buildings_of (mask_data : json) : result Z :=
  shapes ← py_get mask_data (py "shapes") (JArr []);
  py_len shapes.

(** The body of the [try] in the loop of [analyze_dataset_stats]. *)
Definition count_tile (mask_file : path) : result Z :=
  mask_data ← load_mask_data mask_file;
  num_buildings_of mask_data.

(** Whether the [try] body succeeds on a file. *)
Definition loads (mask_file : path) : bool :=
  match count_tile mask_file with
  | Ok _ => true
  | Raise _ => false
  end.

(** One round of the loop: the state is
    [(total_buildings, buildings_per_tile)]. *)
Definition tally (acc : Z * list Z) (mask_file : path) : Z * list Z :=
  match count_tile mask_file with
  | Ok num_buildings => (acc.1 + num_buildings, acc.2 ++ [num_buildings])
  | Raise _ => acc
  end.

Definition stats_of_files (mask_files : list path) : result (stats float) :=
  let '(total_buildings, buildings_per_tile) := fold_left tally mask_files (0, []) in
  avg ← (if py_bool_list buildings_per_tile
         then Ok (PyFloat (np_mean buildings_per_tile)) else Ok (PyInt 0));
  mx ← (if py_bool_list buildings_per_tile then py_max buildings_per_tile else Ok 0);
  mn ← (if py_bool_list buildings_per_tile then py_min buildings_per_tile else Ok 0);
  mret {| total_tiles := Z.of_nat (length mask_files);
          total_buildings := total_buildings;
          avg_buildings_per_tile := avg;
          max_buildings_per_tile := mx;
          min_buildings_per_tile := mn |}.

(** The record of statistics for a final state of the loop, as a closed
    form to compare [stats_of_files] with. *)
Definition stats_of_tally (tiles : nat) (acc : Z * list Z) : stats float :=
  {| total_tiles := Z.of_nat tiles;
     total_buildings := acc.1;
     avg_buildings_per_tile :=
       match acc.2 with [] => PyInt 0 | _ => PyFloat (np_mean acc.2) end;
     max_buildings_per_tile :=
       match acc.2 with [] => 0 | x :: rest => fold_left Z.max rest x end;
     min_buildings_per_tile :=
       match acc.2 with [] => 0 | x :: rest => fold_left Z.min rest x end |}.

Definition analyze_dataset_stats (data_dir : string) : result (stats float) :=
  stats_of_files (glob_json data_dir).

(** The [try] block of one cell. *)
Definition try_cell (row col : nat) (mask_file : path) : plot path () :=
  mask_data ← pure_call (load_mask_data mask_file);
  mask_image ← pure_call
    (create_mask_from_polygons int_of_str draw_polygon mask_data default_image_size);
  axes_at row col (Imshow mask_image);;
  axes_at row col (SetTitle mask_file);;
  axes_at row col AxisOff;;
  num_buildings ← pure_call (num_buildings_of mask_data);
  axes_at row col (TextBuildings num_buildings).

(** The [except Exception] block of one cell. *)
Definition except_cell (row col : nat) (mask_file : path) : plot path () :=
  axes_at row col (TextError mask_file);;
  axes_at row col AxisOff.

(** The body of the loop over [enumerate(sample_files)]; an exception
    that leaves it ends the function. *)
Definition show_cell (i : nat) (mask_file : path) (fig : figure path)
    : result (figure path) :=
  let row := (i / 3)%nat in
  let col := (i mod 3)%nat in
  let '(fig', r) :=
    try_except (try_cell row col mask_file)
               (fun _ => except_cell row col mask_file) fig in
  _ ← r; mret fig'.

(** [random.sample(mask_files, min(num_samples, len(mask_files)))] *)
Definition select_samples (mask_files : list path) (num_samples : Z)
    : result (list path) :=
  random_sample draws mask_files (Z.min num_samples (Z.of_nat (length mask_files))).

(** The result is the figure shown, if one was made, and the value returned
    ([None] for a [return] without a value). *)
Definition visualize_sample_masks (data_dir : string) (num_samples : Z)
    : result (option (figure path) * option Z) :=
  let mask_files := glob_json data_dir in
  if negb (py_bool_list mask_files) then Ok (None, None)
  else
    sample_files ← select_samples mask_files num_samples;
    fig ← for_enumerate show_cell 0 sample_files [];
    mret (Some fig, Some (Z.of_nat (length mask_files))).

(** The counts the loop appends to [buildings_per_tile]: those of the files
    on which the [try] body succeeds, in the order of the scan. *)
Definition tile_counts (mask_files : list path) : list Z :=
  omap (fun mask_file =>
          match count_tile mask_file with
          | Ok num_buildings => Some num_buildings
          | Raise _ => None
          end) mask_files.

End Dataset.

(** The sum of a list of integers. *)
Definition sum_Z (l : list Z) : Z := foldr Z.add 0 l.

(** The cells a figure shows a file in, with the file: one entry for each
    title and for each error text. *)
Definition shown_cells {P} (fig : figure P) : list (nat * nat * P) :=
  omap (fun cell =>
          match cell.2 with
          | SetTitle f => Some (cell.1, f)
          | TextError f => Some (cell.1, f)
          | _ => None
          end) fig.

(** A coordinate [int] refuses whatever [int] does on strings: [null], a
    list, an object, a NaN or an infinity. *)
Definition bad_coordinate (v : json) : bool :=
  match v with
  | JNull | JArr _ | JObj _ => true
  | JFloat S754_nan | JFloat (S754_infinity _) => true
  | _ => false
  end.

(** A value [len] refuses and a [for] loop cannot run over. *)
Definition not_sized (v : json) : bool :=
  match v with
  | JNull | JBool _ | JInt _ | JFloat _ => true
  | _ => false
  end.

(** A record [len(mask_data.get('shapes', []))] raises on: it is no
    object, or its [shapes] field is not sized. *)
Definition no_shapes_list (mask_data : json) : Prop :=
  (forall items, mask_data <> JObj items) \/
  (exists items v, mask_data = JObj items /\
     dict_lookup items (py "shapes") = Some v /\ not_sized v = true).

(** A rasteriser that keeps the size of the image it draws on. *)
Definition keeps_size
    (draw_polygon : image -> list (Z * Z) -> rgb -> rgb -> result image) : Prop :=
  forall im points fill outline im',
    draw_polygon im points fill outline = Ok im' ->
    img_width im' = img_width im /\ img_height im' = img_height im.

(** ** The functions with their console and figure calls *)

(** The lines the script prints, by what they are formatted from. *)
Inductive console_line (P F : Type) :=
| TitleLine
| RuleLine
| StatsHeading
| TileCountLine (n : Z)
| ErrorLine (mask_file : P) (e : pyexc)
| BuildingCountLine (n : Z)
| MeanLine (mean : F)
| MaxLine (n : Z)
| MinLine (n : Z)
| NoMaskFilesLine
| ClosingLine (total_files : option Z).
Arguments TitleLine {P F}.
Arguments RuleLine {P F}.
Arguments StatsHeading {P F}.
Arguments TileCountLine {P F} n.
Arguments ErrorLine {P F} mask_file e.
Arguments BuildingCountLine {P F} n.
Arguments MeanLine {P F} mean.
Arguments MaxLine {P F} n.
Arguments MinLine {P F} n.
Arguments NoMaskFilesLine {P F}.
Arguments ClosingLine {P F} total_files.

(** The calls on [plt] and on the figure as a whole. *)
Inductive pyplot_call :=
| Subplots
| Suptitle
| TightLayout
| Show.

(** [for x in l: s = body(s, x)] *)
Fixpoint for_each {A St} (body : St -> A -> result St) (l : list A) (s : St)
    : result St :=
  match l with
  | [] => Ok s
  | x :: rest => s' ← body s x; for_each body rest s'
  end.

Section Console.

Variable int_of_str : pystr -> result Z.
Variable draw_polygon : image -> list (Z * Z) -> rgb -> rgb -> result image.
Variable path : Type.
Variable glob_json : string -> list path.
Variable read_text : path -> result pystr.
Variable json_loads : pystr -> result json.
Variable float : Type.
Variable np_mean : list Z -> float.
Variable draws : nat -> nat.

(** [print(line)]: it returns, or raises what writing to the console
    raises. *)
Variable print : console_line path float -> result ().

(** A call on [plt] or on the figure: it returns or raises. *)
Variable pyplot : pyplot_call -> result ().

(** One round of the loop of [analyze_dataset_stats]: the handler prints,
    outside any [try]. *)
Definition tally_console (acc : Z * list Z) (mask_file : path) : result (Z * list Z) :=
  match count_tile path read_text json_loads mask_file with
  | Ok num_buildings => Ok (acc.1 + num_buildings, acc.2 ++ [num_buildings])
  | Raise e => print (ErrorLine mask_file e);; Ok acc
  end.

Definition analyze_dataset_stats_console (data_dir : string) : result (stats float) :=
  let mask_files := glob_json data_dir in
  print StatsHeading;;
  print (TileCountLine (Z.of_nat (length mask_files)));;
  acc ← for_each tally_console mask_files (0, []);
  let total_buildings := acc.1 in
  let buildings_per_tile := acc.2 in
  (if py_bool_list buildings_per_tile then
     print (BuildingCountLine total_buildings);;
     print (MeanLine (np_mean buildings_per_tile));;
     mx ← py_max buildings_per_tile;
     print (MaxLine mx);;
     mn ← py_min buildings_per_tile;
     print (MinLine mn)
   else Ok ());;
  avg ← (if py_bool_list buildings_per_tile
         then Ok (PyFloat (np_mean buildings_per_tile)) else Ok (PyInt 0));
  mx ← (if py_bool_list buildings_per_tile then py_max buildings_per_tile else Ok 0);
  mn ← (if py_bool_list buildings_per_tile then py_min buildings_per_tile else Ok 0);
  mret {| total_tiles := Z.of_nat (length mask_files);
          total_buildings := total_buildings;
          avg_buildings_per_tile := avg;
          max_buildings_per_tile := mx;
          min_buildings_per_tile := mn |}.

Definition visualize_sample_masks_console (data_dir : string) (num_samples : Z)
    : result (option (figure path) * option Z) :=
  let mask_files := glob_json data_dir in
  if negb (py_bool_list mask_files) then
    print NoMaskFilesLine;;
    Ok (None, None)
  else
    sample_files ← select_samples path draws mask_files num_samples;
    pyplot Subplots;;
    pyplot Suptitle;;
    fig ← for_enumerate
             (show_cell int_of_str draw_polygon path read_text json_loads)
             0 sample_files [];
    pyplot TightLayout;;
    pyplot Show;;
    mret (Some fig, Some (Z.of_nat (length mask_files))).

(** [main]: the statistics it computes and the number its closing line
    prints. [visualize_sample_masks(data_dir)] takes the default
    [num_samples=6]. *)
Definition main_console : result (stats float * option Z) :=
  print TitleLine;;
  print RuleLine;;
  let data_dir := "./data"%string in
  stats ← analyze_dataset_stats_console data_dir;
  shown ← visualize_sample_masks_console data_dir 6;
  let total_files := shown.2 in
  print (ClosingLine total_files);;
  mret (stats, total_files).

End Console.

(** ** Example data: shapes, records and a small disk *)

(** A shape with the given entries of [points]. *)
Definition shape_json_raw (shape_type : string) (entries : list json) : json :=
  JObj [(py "shape_type", JStr (py shape_type)); (py "points", JArr entries)].

(** A shape as the annotation files write it. *)
Definition shape_json (shape_type : string) (points : list (Z * Z)) : json :=
  shape_json_raw shape_type ((fun p => JArr [JInt p.1; JInt p.2]) <$> points).

Definition polygon_json (points : list (Z * Z)) : json :=
  shape_json "polygon" points.

Definition record_json (shapes : list json) : json :=
  JObj [(py "shapes", JArr shapes)].

Module Fixture.

Definition int_of_str (s : pystr) : result Z :=
  match s with
  | [c] => if bool_decide (48 <= c <= 57)%N then Ok (Z.of_N c - 48) else Raise ValueError
  | _ => Raise ValueError
  end.

(** A stand-in for the rasteriser: it paints the whole image. *)
Definition draw_polygon (im : image) (points : list (Z * Z)) (fill outline : rgb)
    : result image :=
  Ok {| img_width := img_width im;
        img_height := img_height im;
        img_rows := (fun row : list rgb => (fun _ => fill) <$> row) <$> img_rows im |}.

Definition triangle : list (Z * Z) := [(0, 0); (4, 0); (0, 4)].
Definition segment : list (Z * Z) := [(0, 0); (4, 4)].

Definition six_triangles : list json := polygon_json <$> replicate 6 triangle.

Definition tile0 : json :=
  record_json [polygon_json triangle; shape_json "circle" triangle; polygon_json segment].
Definition tile1 : json := record_json [].

(** Files 0 and 1 hold [tile0] and [tile1]; file 2 is not valid JSON and
    any other file cannot be opened. *)
Definition read_text (p : nat) : result pystr :=
  match p with
  | 0%nat => Ok (py "tile0")
  | 1%nat => Ok (py "tile1")
  | 2%nat => Ok (py "{")
  | _ => Raise OSError
  end.

Definition json_loads (text : pystr) : result json :=
  if bool_decide (text = py "tile0") then Ok tile0
  else if bool_decide (text = py "tile1") then Ok tile1
  else Raise ValueError.

Definition glob_json (data_dir : string) : list nat :=
  if String.eqb data_dir "./data" then [0; 1]%nat
  else if String.eqb data_dir "./broken" then [2]%nat
  else [].

Definition np_mean (l : list Z) : QArith_base.Q :=
  QArith_base.Qmake (fold_left Z.add l 0) (Pos.of_nat (length l)).

Definition draws (i : nat) : nat := (7 * i + 3)%nat.

Definition create_mask (mask_data : json) (size : nat * nat) : result image :=
  create_mask_from_polygons int_of_str draw_polygon mask_data size.

Definition stats_of (mask_files : list nat) : result (stats QArith_base.Q) :=
  stats_of_files nat read_text json_loads QArith_base.Q np_mean mask_files.

Definition analyze (data_dir : string) : result (stats QArith_base.Q) :=
  analyze_dataset_stats nat glob_json read_text json_loads QArith_base.Q np_mean data_dir.

Definition visualize (data_dir : string) (num_samples : Z)
    : result (option (figure nat) * option Z) :=
  visualize_sample_masks int_of_str draw_polygon nat glob_json read_text json_loads
    draws data_dir num_samples.

End Fixture.

(** ** Properties of the Python operations *)

Lemma bind_Ok {A B} (a : A) (f : A -> result B) : Ok a ≫= f = f a.
Proof. reflexivity. Qed.

Lemma raises_Raise {A} (e : pyexc) : raises (@Raise A e).
Proof. by exists e. Qed.

Lemma raises_not_Ok {A} (m : result A) (a : A) : raises m -> m <> Ok a.
Proof. intros [e ->]. discriminate. Qed.

Lemma raises_bind {A B} (m : result A) (f : A -> result B) :
  raises m -> raises (m ≫= f).
Proof. intros [e ->]. by exists e. Qed.

Lemma raises_bind_all {A B} (m : result A) (f : A -> result B) :
  (forall a, raises (f a)) -> raises (m ≫= f).
Proof. intros Hf. destruct m as [a|e]; [apply Hf | by exists e]. Qed.

Lemma py_eq_str_true (v : json) (s : pystr) :
  py_eq_str v s = true <-> v = JStr s.
Proof.
  destruct v; simpl; try (split; [discriminate | congruence]).
  rewrite bool_decide_eq_true. split; congruence.
Qed.

Lemma py_eq_str_refl (s : pystr) : py_eq_str (JStr s) s = true.
Proof. by apply py_eq_str_true. Qed.

Lemma getpixel_Image_new (size : nat * nat) (color : rgb) (x y : nat) :
  (x < size.1)%nat -> (y < size.2)%nat ->
  getpixel (Image_new size color) x y = Some color.
Proof.
  intros Hx Hy. unfold getpixel, Image_new. simpl.
  rewrite lookup_replicate_2 by done. simpl.
  by rewrite lookup_replicate_2.
Qed.

Lemma getpixel_Image_new_inv (size : nat * nat) (color c : rgb) (x y : nat) :
  getpixel (Image_new size color) x y = Some c ->
  c = color /\ (x < size.1)%nat /\ (y < size.2)%nat.
Proof.
  unfold getpixel, Image_new. simpl. intros H.
  destruct (replicate size.2 (replicate size.1 color) !! y) as [row|] eqn:Hrow;
    simpl in H; [|discriminate].
  apply lookup_replicate in Hrow as [-> Hy].
  apply lookup_replicate in H as [-> Hx]. done.
Qed.

(** A loop whose body leaves the state alone on every element ends in
    the state it started from. *)
Lemma for_enumerate_unchanged {A St} (body : nat -> A -> St -> result St)
    (l : list A) (s : St) (i : nat) :
  Forall (fun x => forall j, body j x s = Ok s) l ->
  for_enumerate body i l s = Ok s.
Proof.
  intros H. revert i. induction H as [|x l Hx _ IH]; intros i; simpl; [done|].
  rewrite Hx. simpl. apply IH.
Qed.

(** A loop over a list with an element on which the body always raises,
    raises. *)
Lemma for_enumerate_raises {A St} (body : nat -> A -> St -> result St)
    (l : list A) (x : A) (s : St) (i : nat) :
  x ∈ l -> (forall j t, raises (body j x t)) ->
  raises (for_enumerate body i l s).
Proof.
  intros Hin Hx. revert i s.
  induction Hin as [x l|x y l _ IH]; intros i s; simpl.
  - by apply raises_bind.
  - apply raises_bind_all. intros t. apply IH, Hx.
Qed.

Lemma for_enumerate_app {A St} (body : nat -> A -> St -> result St)
    (l1 l2 : list A) (s : St) (i : nat) :
  for_enumerate body i (l1 ++ l2) s =
  for_enumerate body i l1 s ≫= for_enumerate body (i + length l1) l2.
Proof.
  revert i s. induction l1 as [|x l1 IH]; intros i s; simpl.
  - by rewrite Nat.add_0_r.
  - destruct (body i x s) as [s'|e]; simpl; [|done].
    rewrite IH. by replace (S i + length l1)%nat with (i + S (length l1))%nat by lia.
Qed.

Lemma mapM_raises {A B} (f : A -> result B) (l : list A) (x : A) :
  x ∈ l -> raises (f x) -> raises (mapM f l).
Proof.
  intros Hin Hx. induction Hin as [x l|x y l _ IH]; simpl.
  - by apply raises_bind.
  - apply raises_bind_all. intros b. apply raises_bind, IH, Hx.
Qed.

(** ** The rasteriser *)

Section RasterizerProperties.

Variable int_of_str : pystr -> result Z.
Variable draw_polygon : image -> list (Z * Z) -> rgb -> rgb -> result image.

Local Abbreviation draw_shape := (draw_shape int_of_str draw_polygon).
Local Abbreviation create_mask_from_polygons :=
  (create_mask_from_polygons int_of_str draw_polygon).
Local Abbreviation points_of := (points_of int_of_str).
Local Abbreviation point_of := (point_of int_of_str).

Lemma draw_shape_other_type (i : nat) (shape st : json) (im : image) :
  shape_type_is shape st -> py_eq_str st (py "polygon") = false ->
  draw_shape i shape im = Ok im.
Proof.
  unfold shape_type_is, draw_shape. intros -> Hst. by rewrite bind_Ok, Hst.
Qed.

Lemma palette_index (i : nat) :
  exists color, colors !! (i mod length colors)%nat = Some color.
Proof.
  apply lookup_lt_is_Some_2. apply Nat.mod_upper_bound. simpl. lia.
Qed.

(** What the loop body does to a polygon whose points convert. *)
Lemma draw_shape_polygon (i : nat) (shape : json) (pts : list (Z * Z)) (im : image) :
  shape_type_is shape (JStr (py "polygon")) -> shape_points_are int_of_str shape pts ->
  exists color, colors !! (i mod 6)%nat = Some color /\
    draw_shape i shape im =
      if bool_decide (3 <= length pts)%nat then draw_polygon im pts color white
      else Ok im.
Proof.
  unfold shape_type_is, draw_shape. intros Hst (pv & Hpv & Hpts).
  destruct (palette_index i) as [color Hc]. exists color. split; [exact Hc|].
  rewrite Hst, bind_Ok, py_eq_str_refl, Hpv, bind_Ok, Hpts, bind_Ok.
  unfold py_index. by rewrite Hc.
Qed.

Lemma draw_shape_skipped (i : nat) (shape : json) (im : image) :
  skipped_shape int_of_str shape -> draw_shape i shape im = Ok im.
Proof.
  intros (st & Hst & [Hne | (pts & Hpts & Hlen)]).
  - by eapply draw_shape_other_type.
  - destruct (py_eq_str st (py "polygon")) eqn:Heq.
    + apply py_eq_str_true in Heq as ->.
      destruct (draw_shape_polygon i shape pts im Hst Hpts) as (color & _ & ->).
      rewrite bool_decide_eq_false_2; [done | lia].
    + by eapply draw_shape_other_type.
Qed.

Lemma create_mask_of_shapes (items : list (pystr * json)) (shapes : list json)
    (size : nat * nat) :
  dict_lookup items (py "shapes") = Some (JArr shapes) ->
  create_mask_from_polygons (JObj items) size =
    for_enumerate draw_shape 0 shapes (Image_new size black).
Proof. unfold create_mask_from_polygons. simpl. by intros ->. Qed.

(** C4: a record whose [shapes] field is absent or the empty list gives
    the canvas [Image.new] made: it has the requested width and height and
    every one of its pixels is black. *)
Theorem empty_shapes_black_canvas (items : list (pystr * json)) (size : nat * nat) :
  dict_lookup items (py "shapes") = None \/
  dict_lookup items (py "shapes") = Some (JArr []) ->
  exists im,
    create_mask_from_polygons (JObj items) size = Ok im /\
    im = Image_new size black /\
    img_width im = size.1 /\ img_height im = size.2 /\
    length (img_rows im) = size.2 /\
    Forall (fun row => length row = size.1) (img_rows im) /\
    (forall x y, (x < size.1)%nat -> (y < size.2)%nat ->
       getpixel im x y = Some black) /\
    (forall x y c, getpixel im x y = Some c -> c = black).
Proof.
  intros H. exists (Image_new size black).
  split; [|split; [done|]].
  - unfold create_mask_from_polygons. simpl. by destruct H as [-> | ->].
  - repeat split; simpl.
    + apply length_replicate.
    + apply Forall_replicate, length_replicate.
    + intros x y Hx Hy. by apply getpixel_Image_new.
    + intros x y c Hc. by apply getpixel_Image_new_inv in Hc as [-> _].
Qed.


(** C7: the loop body leaves the canvas as it is, and does not raise, on
    a shape whose [shape_type] is a string other than ["polygon"]. *)
Theorem other_shape_type_ignored (i : nat) (items : list (pystr * json))
    (s : pystr) (im : image) :
  dict_lookup items (py "shape_type") = Some (JStr s) ->
  s <> py "polygon" ->
  draw_shape i (JObj items) im = Ok im.
Proof.
  intros Hst Hne. apply (draw_shape_other_type _ _ (JStr s)).
  - unfold shape_type_is. simpl. by rewrite Hst.
  - simpl. by apply bool_decide_eq_false_2.
Qed.

(** C3: in every record, a polygon at index [i] of [shapes] that is drawn is
    filled with [colors[i mod 6]] and outlined in white, whatever comes
    before and after it; at index 6 the fill is [colors[0]], red. *)
Theorem fill_color_is_index_mod_6 (items : list (pystr * json))
    (before after : list json) (shape : json) (pts : list (Z * Z))
    (size : nat * nat) :
  dict_lookup items (py "shapes") = Some (JArr (before ++ shape :: after)) ->
  shape_type_is shape (JStr (py "polygon")) ->
  shape_points_are int_of_str shape pts ->
  (3 <= length pts)%nat ->
  exists color,
    colors !! (length before mod 6)%nat = Some color /\
    (length before = 6%nat -> color = (255, 0, 0) /\ colors !! 0%nat = Some color) /\
    create_mask_from_polygons (JObj items) size =
      (im ← for_enumerate draw_shape 0 before (Image_new size black);
       im' ← draw_polygon im pts color white;
       for_enumerate draw_shape (S (length before)) after im').
Proof.
  intros Hshapes Hst Hpts Hlen.
  destruct (palette_index (length before)) as [color Hc].
  exists color. split; [exact Hc|]. split.
  - intros H6. rewrite H6 in Hc. by injection Hc as <-.
  - rewrite (create_mask_of_shapes _ _ _ Hshapes), for_enumerate_app.
    destruct (for_enumerate draw_shape 0 before (Image_new size black)) as [im|e];
      [|done].
    rewrite !bind_Ok, Nat.add_0_l. cbn [for_enumerate].
    destruct (draw_shape_polygon (length before) shape pts im Hst Hpts)
      as (color' & Hc' & ->).
    assert (color' = color) as ->.
    { change (length colors) with 6%nat in Hc. congruence. }
    by rewrite bool_decide_eq_true_2 by done.
Qed.

Lemma py_unpack2_raises (entry : json) :
  not_a_pair entry -> raises (py_unpack2 entry).
Proof.
  intros Hbad. unfold py_unpack2.
  destruct (py_iter entry) as [l|e] eqn:Hit; [|by exists e].
  rewrite bind_Ok.
  destruct l as [|x [|y [|z l]]]; try apply raises_Raise.
  by destruct (Hbad x y).
Qed.

Lemma draw_shape_lacks_type (i : nat) (shape : json) (im : image) :
  lacks_shape_type shape -> raises (draw_shape i shape im).
Proof.
  intros (items & -> & Hnone). unfold draw_shape.
  apply raises_bind. unfold py_getitem. rewrite Hnone. apply raises_Raise.
Qed.

Lemma draw_shape_bad_point (i : nat) (shape : json) (im : image) :
  has_bad_point shape -> raises (draw_shape i shape im).
Proof.
  intros (items & entries & entry & -> & Hst & Hpv & Hin & Hbad).
  unfold draw_shape, py_getitem.
  rewrite Hst, bind_Ok, py_eq_str_refl, Hpv, bind_Ok.
  apply raises_bind. unfold points_of. cbn [py_iter]. rewrite bind_Ok.
  apply (mapM_raises _ _ entry Hin).
  unfold point_of. by apply raises_bind, py_unpack2_raises.
Qed.

(** C9: the rasteriser raises, and returns no image, on a record whose
    [shapes] list has an element without the [shape_type] key, or a polygon
    with an entry of [points] that is not a 2-element pair. *)
Theorem malformed_shape_raises (items : list (pystr * json)) (shapes : list json)
    (shape : json) (size : nat * nat) :
  dict_lookup items (py "shapes") = Some (JArr shapes) ->
  shape ∈ shapes ->
  lacks_shape_type shape \/ has_bad_point shape ->
  raises (create_mask_from_polygons (JObj items) size) /\
  forall im, create_mask_from_polygons (JObj items) size <> Ok im.
Proof.
  intros Hshapes Hin Hbad.
  assert (raises (create_mask_from_polygons (JObj items) size)) as Hr.
  { rewrite (create_mask_of_shapes _ _ _ Hshapes).
    apply (for_enumerate_raises _ _ shape); [done|].
    intros j t. destruct Hbad.
    - by apply draw_shape_lacks_type.
    - by apply draw_shape_bad_point. }
  split; [done|]. intros im. by apply raises_not_Ok.
Qed.

End RasterizerProperties.

(** ** Sampling without replacement *)

Lemma insert_swap_perm {A} (t : list A) (j : nat) (x y : A) :
  t !! j = Some x -> x :: <[j := y]> t ≡ₚ y :: t.
Proof.
  revert j. induction t as [|z t IH]; intros [|j] Hj; simplify_eq/=.
  - apply perm_swap.
  - rewrite perm_swap. rewrite (IH j Hj). apply perm_swap.
Qed.

(** Taking [pool[j]] out of the first [m + 1] entries and moving the last of
    them into its place leaves the other [m] entries in front. *)
Lemma take_vacancy_perm {A} (pool : list A) (j m : nat) (x y : A) :
  (j <= m)%nat -> pool !! j = Some x -> pool !! m = Some y ->
  x :: take m (<[j := y]> pool) ≡ₚ take (S m) pool.
Proof.
  intros Hjm Hx Hy. rewrite (take_S_r _ _ _ Hy).
  destruct (decide (j = m)) as [->|Hne].
  - rewrite take_insert_ge by done. simplify_eq. apply Permutation_cons_append.
  - rewrite take_insert_lt by lia.
    rewrite insert_swap_perm by (rewrite lookup_take_lt by lia; done).
    apply Permutation_cons_append.
Qed.

Section SamplingProperties.

Variable draws : nat -> nat.

Lemma randbelow_lt (i b : nat) : (0 < b)%nat -> (randbelow draws i b < b)%nat.
Proof. intros Hb. unfold randbelow. apply Nat.mod_upper_bound. lia. Qed.

(** The loop returns, and what it returns is a part of the first [n - i]
    entries of the pool, each entry taken at most once. *)
Lemma sample_loop_perm {A} (n steps i : nat) (pool : list A) :
  (i + steps <= n)%nat -> (n - i <= length pool)%nat ->
  exists out rest,
    sample_loop draws n i steps pool = Ok out /\
    length out = steps /\
    out ++ rest ≡ₚ take (n - i) pool.
Proof.
  revert i pool. induction steps as [|steps IH]; intros i pool Hn Hlen.
  - exists [], (take (n - i) pool). by repeat split.
  - cbn [sample_loop].
    assert (randbelow draws i (n - i) < n - i)%nat as Hj by (apply randbelow_lt; lia).
    set (j := randbelow draws i (n - i)) in *.
    destruct (lookup_lt_is_Some_2 pool j) as [x Hx]; [lia|].
    destruct (lookup_lt_is_Some_2 pool (n - i - 1)) as [y Hy]; [lia|].
    unfold py_index. rewrite Hx, Hy, !bind_Ok.
    destruct (IH (S i) (<[j := y]> pool)) as (out & rest & -> & Hout & Hperm);
      [lia | rewrite length_insert; lia |].
    exists (x :: out), rest. split; [done|]. split; [simpl; lia|].
    simpl. rewrite Hperm.
    replace (n - S i)%nat with (n - i - 1)%nat by lia.
    replace (n - i)%nat with (S (n - i - 1)) at 2 by lia.
    apply take_vacancy_perm; [lia | done | done].
Qed.

(** [random.sample] returns [k] elements taken from the population without
    replacement, when [0 <= k <= len(population)]. *)
Lemma random_sample_spec {A} (population : list A) (k : Z) :
  0 <= k <= Z.of_nat (length population) ->
  exists sample rest,
    random_sample draws population k = Ok sample /\
    length sample = Z.to_nat k /\
    sample ++ rest ≡ₚ population.
Proof.
  intros Hk. unfold random_sample. rewrite bool_decide_eq_true_2 by done.
  destruct (sample_loop_perm (length population) (Z.to_nat k) 0 population)
    as (out & rest & -> & Hout & Hperm); [lia | lia |].
  exists out, rest. repeat split; [done|].
  by rewrite Nat.sub_0_r, take_ge in Hperm.
Qed.

Lemma random_sample_negative {A} (population : list A) (k : Z) :
  k < 0 -> random_sample draws population k = Raise ValueError.
Proof.
  intros Hk. unfold random_sample. rewrite bool_decide_eq_false_2; [done | lia].
Qed.

End SamplingProperties.

(** ** Statistics *)

Section StatsProperties.

Variable path : Type.
Variable glob_json : string -> list path.
Variable read_text : path -> result pystr.
Variable json_loads : pystr -> result json.
Variable float : Type.
Variable np_mean : list Z -> float.

Local Abbreviation load_mask_data := (load_mask_data path read_text json_loads).
Local Abbreviation count_tile := (count_tile path read_text json_loads).
Local Abbreviation loads := (loads path read_text json_loads).
Local Abbreviation tally := (tally path read_text json_loads).
Local Abbreviation stats_of_files :=
  (stats_of_files path read_text json_loads float np_mean).
Local Abbreviation analyze_dataset_stats :=
  (analyze_dataset_stats path glob_json read_text json_loads float np_mean).
Local Abbreviation stats_of_tally := (stats_of_tally float np_mean).

(** The function always returns. *)
Lemma stats_of_files_returns (mask_files : list path) :
  stats_of_files mask_files =
    Ok (stats_of_tally (length mask_files) (fold_left tally mask_files (0, []))).
Proof.
  unfold stats_of_files, stats_of_tally.
  by destruct (fold_left tally mask_files (0, [])) as [total [|n per_tile]].
Qed.

(** A file on which the [try] body raises leaves the loop state alone. *)
Lemma tally_failed (acc : Z * list Z) (mask_file : path) :
  loads mask_file = false -> tally acc mask_file = acc.
Proof.
  unfold loads, tally.
  by destruct (count_tile mask_file).
Qed.

Lemma fold_tally_filter (mask_files : list path) (acc : Z * list Z) :
  fold_left tally mask_files acc = fold_left tally (filter loads mask_files) acc.
Proof.
  revert acc. induction mask_files as [|f fs IH]; intros acc; [done|].
  destruct (loads f) eqn:Hf.
  - rewrite filter_cons_True by by rewrite Hf. cbn [fold_left]. apply IH.
  - rewrite filter_cons_False by (rewrite Hf; exact id).
    cbn [fold_left]. rewrite tally_failed by done. apply IH.
Qed.

(** C1, as the code has it: a file on which the [try] body raises adds
    nothing to [total_buildings] and is left out of the average, the maximum
    and the minimum, which are those of the files that load; [total_tiles]
    is the number of files found, the failed ones included. *)
Theorem failed_file_excluded_from_building_counts (mask_files : list path) :
  exists s s',
    stats_of_files mask_files = Ok s /\
    stats_of_files (filter loads mask_files) = Ok s' /\
    total_buildings s = total_buildings s' /\
    avg_buildings_per_tile s = avg_buildings_per_tile s' /\
    max_buildings_per_tile s = max_buildings_per_tile s' /\
    min_buildings_per_tile s = min_buildings_per_tile s' /\
    total_tiles s = Z.of_nat (length mask_files) /\
    total_tiles s' = Z.of_nat (length (filter loads mask_files)).
Proof.
  do 2 eexists. rewrite !stats_of_files_returns.
  split; [done|]. split; [done|].
  rewrite <- fold_tally_filter. by repeat split.
Qed.

(** C2: with no matching file the function returns, and every field of what
    it returns is 0 (the average is the integer 0, not a float). *)
Theorem empty_directory_all_zero (data_dir : string) :
  glob_json data_dir = [] ->
  analyze_dataset_stats data_dir =
    Ok {| total_tiles := 0;
          total_buildings := 0;
          avg_buildings_per_tile := PyInt 0;
          max_buildings_per_tile := 0;
          min_buildings_per_tile := 0 |}.
Proof.
  intros Hglob. unfold analyze_dataset_stats.
  by rewrite Hglob, stats_of_files_returns.
Qed.

End StatsProperties.

(** ** The sample grid *)

Lemma axes_at_inside {P} (row col : nat) (c : axes_call P) (fig : figure P) :
  (row < 2)%nat -> (col < 3)%nat ->
  axes_at row col c fig = (fig ++ [(row, col, c)], Ok ()).
Proof. intros Hr Hc. unfold axes_at. by rewrite bool_decide_eq_true_2. Qed.

Lemma axes_at_outside {P} (row col : nat) (c : axes_call P) (fig : figure P) :
  (2 <= row)%nat -> axes_at row col c fig = (fig, Raise IndexError).
Proof. intros Hr. unfold axes_at. rewrite bool_decide_eq_false_2; [done | lia]. Qed.

Lemma grid_cell_inside (i : nat) : (i < 6)%nat -> (i / 3 < 2)%nat /\ (i mod 3 < 3)%nat.
Proof.
  intros Hi. split.
  - apply Nat.Div0.div_lt_upper_bound. lia.
  - apply Nat.mod_upper_bound. lia.
Qed.

Lemma shown_files_app {P} (fig1 fig2 : figure P) :
  shown_files (fig1 ++ fig2) = shown_files fig1 ++ shown_files fig2.
Proof. apply omap_app. Qed.

(** A record the rasteriser accepts has a building count. *)
Lemma num_buildings_of_rasterized int_of_str draw_polygon
    (mask_data : json) (size : nat * nat) (im : image) :
  create_mask_from_polygons int_of_str draw_polygon mask_data size = Ok im ->
  exists n, num_buildings_of mask_data = Ok n.
Proof.
  unfold create_mask_from_polygons, num_buildings_of.
  destruct (py_get mask_data (py "shapes") (JArr [])) as [v|e]; [|discriminate].
  rewrite !bind_Ok. destruct v; try discriminate; by eexists.
Qed.

Lemma num_buildings_of_shapes (items : list (pystr * json)) (shapes : list json) :
  dict_lookup items (py "shapes") = Some (JArr shapes) ->
  num_buildings_of (JObj items) = Ok (Z.of_nat (length shapes)).
Proof. unfold num_buildings_of, py_get. by intros ->. Qed.

Section VisualizerProperties.

Variable int_of_str : pystr -> result Z.
Variable draw_polygon : image -> list (Z * Z) -> rgb -> rgb -> result image.
Variable path : Type.
Variable glob_json : string -> list path.
Variable read_text : path -> result pystr.
Variable json_loads : pystr -> result json.
Variable float : Type.
Variable np_mean : list Z -> float.
Variable draws : nat -> nat.

Local Abbreviation create_mask_from_polygons :=
  (create_mask_from_polygons int_of_str draw_polygon).
Local Abbreviation load_mask_data := (load_mask_data path read_text json_loads).
Local Abbreviation count_tile := (count_tile path read_text json_loads).
Local Abbreviation stats_of_files :=
  (stats_of_files path read_text json_loads float np_mean).
Local Abbreviation try_cell :=
  (try_cell int_of_str draw_polygon path read_text json_loads).
Local Abbreviation show_cell :=
  (show_cell int_of_str draw_polygon path read_text json_loads).
Local Abbreviation select_samples := (select_samples path draws).
Local Abbreviation visualize_sample_masks :=
  (visualize_sample_masks int_of_str draw_polygon path glob_json read_text json_loads draws).

(** A cell whose file loads and rasterises. *)
Lemma show_cell_rasterized (i : nat) (mask_file : path) (fig : figure path)
    (mask_data : json) (im : image) (n : Z) :
  (i < 6)%nat ->
  load_mask_data mask_file = Ok mask_data ->
  create_mask_from_polygons mask_data default_image_size = Ok im ->
  num_buildings_of mask_data = Ok n ->
  show_cell i mask_file fig =
    Ok (fig ++ [((i / 3)%nat, (i mod 3)%nat, Imshow im);
                ((i / 3)%nat, (i mod 3)%nat, SetTitle mask_file);
                ((i / 3)%nat, (i mod 3)%nat, AxisOff);
                ((i / 3)%nat, (i mod 3)%nat, TextBuildings n)]).
Proof.
  intros Hi Hload Hmask Hn. destruct (grid_cell_inside i Hi) as [Hr Hc].
  unfold show_cell, try_except, try_cell.
  cbv [mbind plot_bind pure_call].
  rewrite Hload, Hmask, !axes_at_inside, Hn, axes_at_inside by done.
  cbv [result_bind mret result_ret]. by rewrite <- !app_assoc.
Qed.

(** A cell whose file does not load, or does not rasterise: the placeholder. *)
Lemma show_cell_failed (i : nat) (mask_file : path) (fig : figure path) :
  (i < 6)%nat ->
  raises (mask_data ← load_mask_data mask_file;
          create_mask_from_polygons mask_data default_image_size) ->
  show_cell i mask_file fig =
    Ok (fig ++ [((i / 3)%nat, (i mod 3)%nat, TextError mask_file);
                ((i / 3)%nat, (i mod 3)%nat, AxisOff)]).
Proof.
  intros Hi [e He]. destruct (grid_cell_inside i Hi) as [Hr Hc].
  unfold show_cell, try_except, try_cell, except_cell.
  cbv [mbind plot_bind pure_call].
  destruct (load_mask_data mask_file) as [mask_data|e'].
  - rewrite bind_Ok in He. rewrite He, !axes_at_inside by done.
    cbv [result_bind mret result_ret]. by rewrite <- !app_assoc.
  - rewrite !axes_at_inside by done.
    cbv [result_bind mret result_ret]. by rewrite <- !app_assoc.
Qed.

(** Within the grid a cell never ends the function, and it shows its file. *)
Lemma show_cell_returns (i : nat) (mask_file : path) (fig : figure path) :
  (i < 6)%nat ->
  exists calls,
    show_cell i mask_file fig = Ok (fig ++ calls) /\ shown_files calls = [mask_file].
Proof.
  intros Hi.
  destruct (load_mask_data mask_file) as [mask_data|e] eqn:Hload.
  - destruct (create_mask_from_polygons mask_data default_image_size)
      as [im|e] eqn:Hmask.
    + destruct (num_buildings_of_rasterized _ _ _ _ _ Hmask) as [n Hn].
      eexists. split; [by eapply show_cell_rasterized|done].
    + eexists. split.
      * apply show_cell_failed; [done|].
        rewrite Hload, bind_Ok, Hmask. apply raises_Raise.
      * done.
  - eexists. split.
    + apply show_cell_failed; [done|]. rewrite Hload. apply raises_Raise.
    + done.
Qed.

(** Past the grid both the [try] block and its handler raise. *)
Lemma show_cell_outside (i : nat) (mask_file : path) (fig : figure path) :
  (6 <= i)%nat -> show_cell i mask_file fig = Raise IndexError.
Proof.
  intros Hi. assert (2 <= i / 3)%nat as Hr by (apply Nat.div_le_lower_bound; lia).
  unfold show_cell, try_except, try_cell, except_cell.
  cbv [mbind plot_bind pure_call].
  destruct (load_mask_data mask_file) as [mask_data|e];
    [destruct (create_mask_from_polygons mask_data default_image_size) as [im|e]|];
    by rewrite !axes_at_outside.
Qed.

Lemma show_cells_return (sample_files : list path) (i : nat) (fig : figure path) :
  (i + length sample_files <= 6)%nat ->
  exists fig',
    for_enumerate show_cell i sample_files fig = Ok fig' /\
    shown_files fig' = shown_files fig ++ sample_files.
Proof.
  revert i fig. induction sample_files as [|f fs IH]; intros i fig Hlen.
  - exists fig. split; [done|]. by rewrite app_nil_r.
  - simpl in Hlen. cbn [for_enumerate].
    destruct (show_cell_returns i f fig) as (calls & -> & Hcalls); [lia|].
    rewrite bind_Ok.
    destruct (IH (S i) (fig ++ calls)) as (fig' & -> & Hfig'); [lia|].
    exists fig'. split; [done|].
    by rewrite Hfig', shown_files_app, Hcalls, <- app_assoc.
Qed.

(** Past the sixth file the loop ends the function with [IndexError]. *)
Lemma show_cells_past_grid (sample_files : list path) (i : nat) (fig : figure path) :
  (i <= 6)%nat -> (6 < i + length sample_files)%nat ->
  for_enumerate show_cell i sample_files fig = Raise IndexError.
Proof.
  revert i fig. induction sample_files as [|f fs IH]; intros i fig Hi Hlen.
  - simpl in Hlen. lia.
  - simpl in Hlen. cbn [for_enumerate].
    destruct (decide (i = 6%nat)) as [->|Hne].
    + by rewrite show_cell_outside.
    + destruct (show_cell_returns i f fig) as (calls & -> & _); [lia|].
      rewrite bind_Ok. apply IH; lia.
Qed.

(** C8: the building count of a record that loads is the length of its
    [shapes] list, in the statistics and in the caption of its cell alike,
    whether or not the rasteriser draws the shapes; when it skips all of
    them the image is the black canvas and the count is still the length. *)
Theorem building_count_is_shapes_length (mask_file : path)
    (items : list (pystr * json)) (shapes : list json) :
  load_mask_data mask_file = Ok (JObj items) ->
  dict_lookup items (py "shapes") = Some (JArr shapes) ->
  count_tile mask_file = Ok (Z.of_nat (length shapes)) /\
  stats_of_files [mask_file] =
    Ok {| total_tiles := 1;
          total_buildings := Z.of_nat (length shapes);
          avg_buildings_per_tile := PyFloat (np_mean [Z.of_nat (length shapes)]);
          max_buildings_per_tile := Z.of_nat (length shapes);
          min_buildings_per_tile := Z.of_nat (length shapes) |} /\
  (forall i fig im, (i < 6)%nat ->
     create_mask_from_polygons (JObj items) default_image_size = Ok im ->
     show_cell i mask_file fig =
       Ok (fig ++ [((i / 3)%nat, (i mod 3)%nat, Imshow im);
                   ((i / 3)%nat, (i mod 3)%nat, SetTitle mask_file);
                   ((i / 3)%nat, (i mod 3)%nat, AxisOff);
                   ((i / 3)%nat, (i mod 3)%nat,
                     TextBuildings (Z.of_nat (length shapes)))])) /\
  (Forall (skipped_shape int_of_str) shapes ->
     forall size,
       create_mask_from_polygons (JObj items) size = Ok (Image_new size black)).
Proof.
  intros Hload Hshapes.
  assert (count_tile mask_file = Ok (Z.of_nat (length shapes))) as Hcount.
  { unfold count_tile. rewrite Hload, bind_Ok. by apply num_buildings_of_shapes. }
  split; [done|]. split; [|split].
  - rewrite stats_of_files_returns. cbn [fold_left length]. unfold tally.
    by rewrite Hcount.
  - intros i fig im Hi Hmask.
    apply (show_cell_rasterized i mask_file fig (JObj items) im); try done.
    by apply num_buildings_of_shapes.
  - intros Hskip size. rewrite (create_mask_of_shapes _ _ _ _ _ Hshapes).
    apply for_enumerate_unchanged.
    eapply Forall_impl; [exact Hskip|]. intros shape Hs j.
    by apply draw_shape_skipped.
Qed.

(** C6: from a scan that found files, and for a requested count that is
    not negative, the function draws [min(requested, available)] files
    without replacement (distinct ones, as the files found are distinct);
    up to the 6 cells of the grid it then shows exactly these files and
    returns, so that a request for 6 out of 2 files shows 2. *)
Theorem samples_min_requested_available (data_dir : string) (num_samples : Z) :
  glob_json data_dir <> [] ->
  0 <= num_samples ->
  exists sample_files rest,
    select_samples (glob_json data_dir) num_samples = Ok sample_files /\
    length sample_files =
      Nat.min (Z.to_nat num_samples) (length (glob_json data_dir)) /\
    sample_files ++ rest ≡ₚ glob_json data_dir /\
    (NoDup (glob_json data_dir) -> NoDup sample_files) /\
    (num_samples <= 6 ->
       exists fig,
         visualize_sample_masks data_dir num_samples =
           Ok (Some fig, Some (Z.of_nat (length (glob_json data_dir)))) /\
         shown_files fig = sample_files) /\
    (num_samples = 6 -> length (glob_json data_dir) = 2%nat ->
       length sample_files = 2%nat).
Proof.
  intros Hfiles Hnum. set (mask_files := glob_json data_dir) in *.
  destruct (random_sample_spec draws mask_files
              (Z.min num_samples (Z.of_nat (length mask_files))))
    as (sample_files & rest & Hsel & Hlen & Hperm); [lia|].
  assert (length sample_files = Nat.min (Z.to_nat num_samples) (length mask_files))
    as Hlen' by lia.
  exists sample_files, rest. split; [exact Hsel|]. split; [exact Hlen'|].
  split; [exact Hperm|]. split; [|split].
  - intros Hnodup. rewrite <- Hperm in Hnodup. by apply NoDup_app in Hnodup as [? _].
  - intros H6. unfold visualize_sample_masks. fold mask_files.
    destruct mask_files as [|f fs] eqn:Hmf; [done|]. cbn [py_bool_list negb].
    unfold select_samples. rewrite Hsel, bind_Ok.
    destruct (show_cells_return sample_files 0 []) as (fig & -> & Hfig); [lia|].
    by exists fig.
  - intros -> H2. lia.
Qed.

(** C10: when the scan finds no file the function returns [None] and makes
    no figure; a count is returned only when files were found, and it is
    their number; and it is returned whenever files were found and the
    requested count is between 0 and the 6 cells of the grid. *)
Theorem returns_count_only_when_files_found (data_dir : string) (num_samples : Z) :
  (glob_json data_dir = [] ->
     visualize_sample_masks data_dir num_samples = Ok (None, None)) /\
  (forall fig n,
     visualize_sample_masks data_dir num_samples = Ok (fig, Some n) ->
     glob_json data_dir <> [] /\ n = Z.of_nat (length (glob_json data_dir))) /\
  (glob_json data_dir <> [] -> 0 <= num_samples <= 6 ->
     exists fig,
       visualize_sample_masks data_dir num_samples =
         Ok (Some fig, Some (Z.of_nat (length (glob_json data_dir))))).
Proof.
  split; [|split].
  - intros Hglob. unfold visualize_sample_masks. by rewrite Hglob.
  - intros fig n. unfold visualize_sample_masks.
    destruct (glob_json data_dir) as [|f fs]; [discriminate|].
    cbn [py_bool_list negb].
    destruct (select_samples (f :: fs) num_samples) as [sample_files|e];
      [|discriminate].
    rewrite bind_Ok.
    destruct (for_enumerate show_cell 0 sample_files []) as [fig'|e];
      [|discriminate].
    rewrite bind_Ok. by intros [= <- <-].
  - intros Hfiles Hnum. set (mask_files := glob_json data_dir) in *.
    destruct (random_sample_spec draws mask_files
                (Z.min num_samples (Z.of_nat (length mask_files))))
      as (sample_files & rest & Hsel & Hlen & _); [lia|].
    unfold visualize_sample_masks. fold mask_files.
    destruct mask_files as [|f fs] eqn:Hmf; [done|]. cbn [py_bool_list negb].
    unfold select_samples. rewrite Hsel, bind_Ok.
    destruct (show_cells_return sample_files 0 []) as (fig & -> & _); [lia|].
    by exists fig.
Qed.

(** X13: when files were found, a negative requested count makes the
    function raise [ValueError]: [random.sample] refuses a negative count. *)
Lemma negative_request_raises (data_dir : string) (num_samples : Z) :
  glob_json data_dir <> [] -> num_samples < 0 ->
  visualize_sample_masks data_dir num_samples = Raise ValueError.
Proof.
  intros Hfiles Hnum. unfold visualize_sample_masks.
  destruct (glob_json data_dir) as [|f fs] eqn:Hmf; [done|]. cbn [py_bool_list negb].
  unfold select_samples. rewrite random_sample_negative; [done | lia].
Qed.

(** X14: a request for 7 files or more out of 7 files or more makes the
    function raise [IndexError]: the grid has no seventh cell, and the
    handler of the cell looks it up again. *)
Lemma request_past_grid_raises (data_dir : string) (num_samples : Z) :
  7 <= num_samples -> (7 <= length (glob_json data_dir))%nat ->
  visualize_sample_masks data_dir num_samples = Raise IndexError.
Proof.
  intros Hnum Hfiles. set (mask_files := glob_json data_dir) in *.
  destruct (random_sample_spec draws mask_files
              (Z.min num_samples (Z.of_nat (length mask_files))))
    as (sample_files & rest & Hsel & Hlen & _); [lia|].
  unfold visualize_sample_masks. fold mask_files.
  destruct mask_files as [|f fs] eqn:Hmf; [simpl in Hfiles; lia|].
  cbn [py_bool_list negb]. unfold select_samples. rewrite Hsel, bind_Ok.
  rewrite show_cells_past_grid; [done | lia | lia].
Qed.

End VisualizerProperties.

(** ** The model at the example data *)

Example int_of_float_truncates : int_of_float (S754_finite true 5 (-1)) = Ok (-2).
Proof. reflexivity. Qed.

Example point_of_two_digit_string :
  point_of Fixture.int_of_str (JStr (py "12")) = Ok (1, 2).
Proof. reflexivity. Qed.

Example rasterize_tile0 :
  Fixture.create_mask Fixture.tile0 (2%nat, 1%nat) =
    Ok {| img_width := 2; img_height := 1; img_rows := [[(255, 0, 0); (255, 0, 0)]] |}.
Proof. reflexivity. Qed.

Example sample_both_files :
  random_sample Fixture.draws [0; 1]%nat 2 = Ok [1; 0]%nat.
Proof. reflexivity. Qed.

Example stats_of_data :
  Fixture.analyze "./data" =
    Ok {| total_tiles := 2; total_buildings := 3;
          avg_buildings_per_tile := PyFloat (QArith_base.Qmake 3 2);
          max_buildings_per_tile := 3; min_buildings_per_tile := 0 |}.
Proof. reflexivity. Qed.

(** ** The statements at the example data *)

(** C1, as the specification has it, fails: a file that does not load is
    counted in [total_tiles]. The directory ["./broken"] holds one file,
    which is not valid JSON; the statistics count 1 tile, where the files
    that load give 0. *)
Lemma failed_file_counted_as_tile :
  Fixture.glob_json "./broken" = [2%nat] /\
  count_tile nat Fixture.read_text Fixture.json_loads 2%nat = Raise ValueError /\
  filter (loads nat Fixture.read_text Fixture.json_loads) [2%nat] = [] /\
  Fixture.analyze "./broken" =
    Ok {| total_tiles := 1; total_buildings := 0; avg_buildings_per_tile := PyInt 0;
          max_buildings_per_tile := 0; min_buildings_per_tile := 0 |} /\
  Fixture.stats_of (filter (loads nat Fixture.read_text Fixture.json_loads) [2%nat]) =
    Ok {| total_tiles := 0; total_buildings := 0; avg_buildings_per_tile := PyInt 0;
          max_buildings_per_tile := 0; min_buildings_per_tile := 0 |} /\
  Fixture.stats_of [2%nat] <>
    Fixture.stats_of (filter (loads nat Fixture.read_text Fixture.json_loads) [2%nat]).
Proof. repeat split. discriminate. Qed.

(** C2 at a directory without files. *)
Lemma empty_directory_all_zero_witness :
  Fixture.glob_json "./nowhere" = [] /\
  Fixture.analyze "./nowhere" =
    Ok {| total_tiles := 0; total_buildings := 0; avg_buildings_per_tile := PyInt 0;
          max_buildings_per_tile := 0; min_buildings_per_tile := 0 |}.
Proof.
  split; [reflexivity|].
  apply (empty_directory_all_zero nat Fixture.glob_json Fixture.read_text
           Fixture.json_loads QArith_base.Q Fixture.np_mean "./nowhere").
  reflexivity.
Defined.

(** C3 at a record of 7 triangles: the seventh is filled in red. *)
Lemma fill_color_is_index_mod_6_witness :
  (3 <= length Fixture.triangle)%nat /\
  exists color,
    colors !! (length Fixture.six_triangles mod 6)%nat = Some color /\
    (length Fixture.six_triangles = 6%nat ->
       color = (255, 0, 0) /\ colors !! 0%nat = Some color) /\
    Fixture.create_mask
      (record_json (Fixture.six_triangles ++ [polygon_json Fixture.triangle]))
      (2%nat, 2%nat) =
      (im ← for_enumerate (draw_shape Fixture.int_of_str Fixture.draw_polygon) 0
              Fixture.six_triangles (Image_new (2%nat, 2%nat) black);
       im' ← Fixture.draw_polygon im Fixture.triangle color white;
       for_enumerate (draw_shape Fixture.int_of_str Fixture.draw_polygon)
         (S (length Fixture.six_triangles)) [] im').
Proof.
  split; [simpl; lia|].
  apply (fill_color_is_index_mod_6 Fixture.int_of_str Fixture.draw_polygon
           [(py "shapes",
             JArr (Fixture.six_triangles ++ [polygon_json Fixture.triangle]))]
           Fixture.six_triangles [] (polygon_json Fixture.triangle)
           Fixture.triangle (2%nat, 2%nat)).
  - reflexivity.
  - reflexivity.
  - eexists. split; reflexivity.
  - simpl. lia.
Defined.

(** C4 at a record with an empty [shapes] list and a 3 by 2 canvas. *)
Lemma empty_shapes_black_canvas_witness :
  dict_lookup [(py "shapes", JArr [])] (py "shapes") = Some (JArr []) /\
  Fixture.create_mask Fixture.tile1 (3%nat, 2%nat) = Ok (Image_new (3%nat, 2%nat) black) /\
  getpixel (Image_new (3%nat, 2%nat) black) 2 1 = Some black.
Proof.
  split; [reflexivity|].
  destruct (empty_shapes_black_canvas Fixture.int_of_str Fixture.draw_polygon
              [(py "shapes", JArr [])] (3%nat, 2%nat))
    as (im & Hmask & -> & _ & _ & _ & _ & Hpixel & _).
  - right. reflexivity.
  - split; [exact Hmask|]. apply Hpixel; simpl; lia.
Defined.


(** C7 at a shape of type ["circle"]. *)
Lemma other_shape_type_ignored_witness :
  py "circle" <> py "polygon" /\
  draw_shape Fixture.int_of_str Fixture.draw_polygon 0
    (shape_json "circle" Fixture.triangle)
    (Image_new (2%nat, 2%nat) black) = Ok (Image_new (2%nat, 2%nat) black).
Proof.
  assert (py "circle" <> py "polygon") as Hne by (vm_compute; discriminate).
  split; [exact Hne|].
  apply (other_shape_type_ignored Fixture.int_of_str Fixture.draw_polygon 0 _
           (py "circle")).
  - reflexivity.
  - exact Hne.
Defined.

(** C9 at a shape without [shape_type], and at a polygon with an entry of
    3 coordinates. *)
Lemma malformed_shape_raises_witness :
  lacks_shape_type (JObj [(py "points", JArr [])]) /\
  has_bad_point (shape_json_raw "polygon" [JArr [JInt 1; JInt 2; JInt 3]]) /\
  raises (Fixture.create_mask (record_json [JObj [(py "points", JArr [])]])
            default_image_size) /\
  raises (Fixture.create_mask
            (record_json [polygon_json Fixture.triangle;
                          shape_json_raw "polygon" [JArr [JInt 1; JInt 2; JInt 3]]])
            default_image_size).
Proof.
  assert (lacks_shape_type (JObj [(py "points", JArr [])])) as Hlacks.
  { eexists. split; reflexivity. }
  assert (has_bad_point (shape_json_raw "polygon" [JArr [JInt 1; JInt 2; JInt 3]]))
    as Hbad.
  { exists [(py "shape_type", JStr (py "polygon"));
            (py "points", JArr [JArr [JInt 1; JInt 2; JInt 3]])],
      [JArr [JInt 1; JInt 2; JInt 3]], (JArr [JInt 1; JInt 2; JInt 3]).
    repeat split; [constructor|]. intros x y. discriminate. }
  split; [exact Hlacks|]. split; [exact Hbad|]. split.
  - apply (malformed_shape_raises Fixture.int_of_str Fixture.draw_polygon
             [(py "shapes", JArr [JObj [(py "points", JArr [])]])]
             [JObj [(py "points", JArr [])]] (JObj [(py "points", JArr [])])).
    + reflexivity.
    + constructor.
    + left. exact Hlacks.
  - apply (malformed_shape_raises Fixture.int_of_str Fixture.draw_polygon
             [(py "shapes",
               JArr [polygon_json Fixture.triangle;
                     shape_json_raw "polygon" [JArr [JInt 1; JInt 2; JInt 3]]])]
             [polygon_json Fixture.triangle;
              shape_json_raw "polygon" [JArr [JInt 1; JInt 2; JInt 3]]]
             (shape_json_raw "polygon" [JArr [JInt 1; JInt 2; JInt 3]])).
    + reflexivity.
    + do 2 constructor.
    + right. exact Hbad.
Defined.

(** C8 at file 0: 3 shapes, of which the rasteriser draws 1. *)
Lemma building_count_is_shapes_length_witness :
  load_mask_data nat Fixture.read_text Fixture.json_loads 0%nat = Ok Fixture.tile0 /\
  count_tile nat Fixture.read_text Fixture.json_loads 0%nat = Ok 3 /\
  Fixture.stats_of [0%nat] =
    Ok {| total_tiles := 1; total_buildings := 3;
          avg_buildings_per_tile := PyFloat (Fixture.np_mean [3]);
          max_buildings_per_tile := 3; min_buildings_per_tile := 3 |}.
Proof.
  split; [reflexivity|].
  destruct (building_count_is_shapes_length Fixture.int_of_str Fixture.draw_polygon
              nat Fixture.read_text Fixture.json_loads QArith_base.Q Fixture.np_mean
              0%nat
              [(py "shapes",
                JArr [polygon_json Fixture.triangle;
                      shape_json "circle" Fixture.triangle;
                      polygon_json Fixture.segment])]
              [polygon_json Fixture.triangle;
               shape_json "circle" Fixture.triangle;
               polygon_json Fixture.segment])
    as (Hcount & Htally & _).
  - reflexivity.
  - reflexivity.
  - split; [exact Hcount | exact Htally].
Defined.

(** C6 at a request for 6 files out of the 2 of ["./data"]. *)
Lemma samples_min_requested_available_witness :
  Fixture.glob_json "./data" <> [] /\
  0 <= 6 /\
  exists sample_files rest fig,
    select_samples nat Fixture.draws (Fixture.glob_json "./data") 6 = Ok sample_files /\
    length sample_files = 2%nat /\
    sample_files ++ rest ≡ₚ [0; 1]%nat /\
    NoDup sample_files /\
    Fixture.visualize "./data" 6 = Ok (Some fig, Some 2) /\
    shown_files fig = sample_files.
Proof.
  assert (Fixture.glob_json "./data" <> []) as Hfiles by (vm_compute; discriminate).
  split; [exact Hfiles|]. split; [lia|].
  destruct (samples_min_requested_available Fixture.int_of_str Fixture.draw_polygon
              nat Fixture.glob_json Fixture.read_text Fixture.json_loads
              Fixture.draws "./data" 6 Hfiles)
    as (sample_files & rest & Hsel & Hlen & Hperm & Hnodup & Hshow & _); [lia|].
  destruct Hshow as (fig & Hvis & Hfig); [lia|].
  exists sample_files, rest, fig. repeat split; try done.
  apply Hnodup. by apply (bool_decide_unpack (NoDup [0; 1]%nat)).
Defined.

(** ** More on the statistics *)

Lemma fold_max_spec (l : list Z) (x : Z) :
  fold_left Z.max l x ∈ x :: l /\ Forall (fun y => y <= fold_left Z.max l x) (x :: l).
Proof.
  revert x. induction l as [|y l IH]; intros x.
  - split; [by left | by repeat constructor].
  - cbn [fold_left]. destruct (IH (Z.max x y)) as [Hin Hall].
    apply Forall_cons in Hall as [Hxy Hall]. split.
    + apply elem_of_cons in Hin as [->|Hin].
      * destruct (Z.max_spec x y) as [[_ ->]|[_ ->]]; [right; by left | by left].
      * by do 2 right.
    + constructor; [lia|]. constructor; [lia | done].
Qed.

Lemma fold_min_spec (l : list Z) (x : Z) :
  fold_left Z.min l x ∈ x :: l /\ Forall (fun y => fold_left Z.min l x <= y) (x :: l).
Proof.
  revert x. induction l as [|y l IH]; intros x.
  - split; [by left | by repeat constructor].
  - cbn [fold_left]. destruct (IH (Z.min x y)) as [Hin Hall].
    apply Forall_cons in Hall as [Hxy Hall]. split.
    + apply elem_of_cons in Hin as [->|Hin].
      * destruct (Z.min_spec x y) as [[_ ->]|[_ ->]]; [by left | right; by left].
      * by do 2 right.
    + constructor; [lia|]. constructor; [lia | done].
Qed.

Lemma sum_Z_app (l k : list Z) : sum_Z (l ++ k) = sum_Z l + sum_Z k.
Proof. unfold sum_Z. induction l as [|x l IH]; simpl; lia. Qed.

Lemma sum_Z_nonneg (l : list Z) : Forall (fun y => 0 <= y) l -> 0 <= sum_Z l.
Proof. unfold sum_Z. induction 1; simpl; lia. Qed.

Lemma sum_Z_elem_le (l : list Z) (x : Z) :
  Forall (fun y => 0 <= y) l -> x ∈ l -> x <= sum_Z l.
Proof.
  intros Hall Hin. induction Hall as [|y l Hy Hall IH].
  - by apply elem_of_nil in Hin.
  - apply elem_of_cons in Hin as [->|Hin]; unfold sum_Z; simpl.
    + pose proof (sum_Z_nonneg l Hall). unfold sum_Z in *. lia.
    + specialize (IH Hin). unfold sum_Z in *. lia.
Qed.

Lemma sum_Z_Permutation (l k : list Z) : l ≡ₚ k -> sum_Z l = sum_Z k.
Proof. unfold sum_Z. induction 1; simpl; lia. Qed.

Lemma py_len_nonneg (v : json) (n : Z) : py_len v = Ok n -> 0 <= n.
Proof. destruct v; simpl; intros [= <-]; lia. Qed.

(** [max] and [min] guarded as the function guards them: 0 for no count. *)
Lemma guarded_max_Permutation (l k : list Z) :
  l ≡ₚ k ->
  match l with [] => 0 | x :: rest => fold_left Z.max rest x end =
  match k with [] => 0 | x :: rest => fold_left Z.max rest x end.
Proof.
  intros Hperm. destruct l as [|x l], k as [|y k]; [done| | |].
  - by apply Permutation_nil_l in Hperm.
  - by apply Permutation_nil_r in Hperm.
  - destruct (fold_max_spec l x) as [Hin1 Hall1], (fold_max_spec k y) as [Hin2 Hall2].
    rewrite Hperm in Hin1. rewrite <- Hperm in Hin2.
    rewrite Forall_forall in Hall1, Hall2.
    apply Hall1 in Hin2. apply Hall2 in Hin1. lia.
Qed.

Lemma guarded_min_Permutation (l k : list Z) :
  l ≡ₚ k ->
  match l with [] => 0 | x :: rest => fold_left Z.min rest x end =
  match k with [] => 0 | x :: rest => fold_left Z.min rest x end.
Proof.
  intros Hperm. destruct l as [|x l], k as [|y k]; [done| | |].
  - by apply Permutation_nil_l in Hperm.
  - by apply Permutation_nil_r in Hperm.
  - destruct (fold_min_spec l x) as [Hin1 Hall1], (fold_min_spec k y) as [Hin2 Hall2].
    rewrite Hperm in Hin1. rewrite <- Hperm in Hin2.
    rewrite Forall_forall in Hall1, Hall2.
    apply Hall1 in Hin2. apply Hall2 in Hin1. lia.
Qed.

Section StatsMore.

Variable path : Type.
Variable glob_json : string -> list path.
Variable read_text : path -> result pystr.
Variable json_loads : pystr -> result json.
Variable float : Type.
Variable np_mean : list Z -> float.

Local Abbreviation count_tile := (count_tile path read_text json_loads).
Local Abbreviation loads := (loads path read_text json_loads).
Local Abbreviation tally := (tally path read_text json_loads).
Local Abbreviation tile_counts := (tile_counts path read_text json_loads).
Local Abbreviation stats_of_files :=
  (stats_of_files path read_text json_loads float np_mean).
Local Abbreviation analyze_dataset_stats :=
  (analyze_dataset_stats path glob_json read_text json_loads float np_mean).

Lemma count_tile_nonneg (mask_file : path) (n : Z) :
  count_tile mask_file = Ok n -> 0 <= n.
Proof.
  unfold count_tile, num_buildings_of.
  destruct (load_mask_data _ _ _ mask_file) as [mask_data|e]; [|discriminate].
  rewrite bind_Ok.
  destruct (py_get mask_data (py "shapes") (JArr [])) as [v|e]; [|discriminate].
  rewrite bind_Ok. apply py_len_nonneg.
Qed.

Lemma tile_counts_nonneg (mask_files : list path) :
  Forall (fun n => 0 <= n) (tile_counts mask_files).
Proof.
  apply Forall_forall. intros n (f & _ & Hf)%list_elem_of_omap.
  destruct (count_tile f) as [m|e] eqn:Hcount; [|discriminate].
  injection Hf as <-. by eapply count_tile_nonneg.
Qed.

Lemma tile_counts_elem (mask_files : list path) (mask_file : path) (n : Z) :
  mask_file ∈ mask_files -> count_tile mask_file = Ok n ->
  n ∈ tile_counts mask_files.
Proof.
  intros Hin Hcount. apply list_elem_of_omap. exists mask_file.
  split; [done|]. by rewrite Hcount.
Qed.

(** The state the loop ends in. *)
Lemma fold_tally_counts (mask_files : list path) (acc : Z * list Z) :
  fold_left tally mask_files acc =
    (acc.1 + sum_Z (tile_counts mask_files), acc.2 ++ tile_counts mask_files).
Proof.
  revert acc. induction mask_files as [|f fs IH]; intros [total per_tile].
  - unfold sum_Z. simpl. by rewrite Z.add_0_r, app_nil_r.
  - cbn [fold_left]. rewrite IH. unfold tally, tile_counts. cbn [omap list_omap].
    destruct (count_tile f) as [n|e]; [|done].
    unfold sum_Z. simpl. rewrite <- app_assoc. simpl. f_equal. lia.
Qed.

Lemma stats_of_files_counts (mask_files : list path) :
  stats_of_files mask_files =
    Ok (stats_of_tally float np_mean (length mask_files)
          (sum_Z (tile_counts mask_files), tile_counts mask_files)).
Proof.
  rewrite stats_of_files_returns, fold_tally_counts. by rewrite Z.add_0_l.
Qed.

(** The record of the statistics, prints left out: [total_tiles] is the
    number of files found, [total_buildings] the sum of the counts of the
    files that load, and the average, the maximum and the minimum are taken
    over exactly these counts, in the order of the scan (0 when there is
    none). *)
Lemma statistics_of_loaded_counts (data_dir : string) :
  analyze_dataset_stats data_dir =
    Ok {| total_tiles := Z.of_nat (length (glob_json data_dir));
          total_buildings := sum_Z (tile_counts (glob_json data_dir));
          avg_buildings_per_tile :=
            match tile_counts (glob_json data_dir) with
            | [] => PyInt 0
            | counts => PyFloat (np_mean counts)
            end;
          max_buildings_per_tile :=
            match tile_counts (glob_json data_dir) with
            | [] => 0
            | x :: rest => fold_left Z.max rest x
            end;
          min_buildings_per_tile :=
            match tile_counts (glob_json data_dir) with
            | [] => 0
            | x :: rest => fold_left Z.min rest x
            end |}.
Proof.
  unfold analyze_dataset_stats. rewrite stats_of_files_counts.
  unfold stats_of_tally. cbn [fst snd].
  by destruct (tile_counts (glob_json data_dir)).
Qed.

(** X2: the count of every file that loads lies between the minimum and the
    maximum the function returns. *)
Theorem tile_count_between_min_and_max (data_dir : string) (mask_file : path) (n : Z) :
  mask_file ∈ glob_json data_dir ->
  count_tile mask_file = Ok n ->
  exists s,
    analyze_dataset_stats data_dir = Ok s /\
    min_buildings_per_tile s <= n <= max_buildings_per_tile s.
Proof.
  intros Hin Hcount. unfold analyze_dataset_stats. rewrite stats_of_files_counts.
  eexists. split; [done|]. unfold stats_of_tally. cbn.
  pose proof (tile_counts_elem _ _ _ Hin Hcount) as Hn.
  destruct (tile_counts (glob_json data_dir)) as [|x rest].
  - by apply elem_of_nil in Hn.
  - destruct (fold_max_spec rest x) as [_ Hmax], (fold_min_spec rest x) as [_ Hmin].
    rewrite Forall_forall in Hmax, Hmin. split; [by apply Hmin | by apply Hmax].
Qed.

(** X3: the aggregates are never negative, and
    [0 <= min <= max <= total_buildings]. *)
Theorem aggregates_ordered (data_dir : string) :
  exists s,
    analyze_dataset_stats data_dir = Ok s /\
    0 <= total_tiles s /\
    0 <= min_buildings_per_tile s /\
    min_buildings_per_tile s <= max_buildings_per_tile s /\
    max_buildings_per_tile s <= total_buildings s.
Proof.
  unfold analyze_dataset_stats. rewrite stats_of_files_counts.
  eexists. split; [done|]. unfold stats_of_tally. cbn.
  pose proof (tile_counts_nonneg (glob_json data_dir)) as Hpos.
  split; [lia|].
  destruct (tile_counts (glob_json data_dir)) as [|x rest]; [unfold sum_Z; simpl; lia|].
  destruct (fold_max_spec rest x) as [Hmax_in Hmax], (fold_min_spec rest x) as [Hmin_in Hmin].
  rewrite Forall_forall in Hmax, Hmin.
  split; [|split].
  - rewrite Forall_forall in Hpos. by apply Hpos.
  - by apply Hmax.
  - by apply sum_Z_elem_le.
Qed.

(** X4: when files are found but none loads, every building aggregate is 0
    (the average is the integer 0) while [total_tiles] is the number of
    files. *)
Theorem no_file_loads_zero_aggregates (data_dir : string) :
  Forall (fun mask_file => loads mask_file = false) (glob_json data_dir) ->
  analyze_dataset_stats data_dir =
    Ok {| total_tiles := Z.of_nat (length (glob_json data_dir));
          total_buildings := 0;
          avg_buildings_per_tile := PyInt 0;
          max_buildings_per_tile := 0;
          min_buildings_per_tile := 0 |}.
Proof.
  intros Hfail. unfold analyze_dataset_stats. rewrite stats_of_files_counts.
  assert (tile_counts (glob_json data_dir) = []) as ->; [|done].
  induction Hfail as [|f fs Hf _ IH]; [done|].
  unfold tile_counts in *. cbn [omap list_omap]. unfold loads in Hf.
  by destruct (count_tile f).
Qed.

(** X5: the order in which the scan lists the files does not matter to
    [total_tiles], [total_buildings], the maximum and the minimum; nor to
    the average, when the mean does not depend on the order. *)
Theorem scan_order_irrelevant (mask_files mask_files' : list path) :
  mask_files ≡ₚ mask_files' ->
  exists s s',
    stats_of_files mask_files = Ok s /\
    stats_of_files mask_files' = Ok s' /\
    total_tiles s = total_tiles s' /\
    total_buildings s = total_buildings s' /\
    max_buildings_per_tile s = max_buildings_per_tile s' /\
    min_buildings_per_tile s = min_buildings_per_tile s' /\
    ((forall l k, l ≡ₚ k -> np_mean l = np_mean k) ->
       avg_buildings_per_tile s = avg_buildings_per_tile s').
Proof.
  intros Hperm. rewrite !stats_of_files_counts. do 2 eexists.
  split; [done|]. split; [done|]. unfold stats_of_tally. cbn.
  assert (tile_counts mask_files ≡ₚ tile_counts mask_files') as Hcounts
    by (unfold tile_counts; by rewrite Hperm).
  split; [by rewrite Hperm|]. split; [by apply sum_Z_Permutation|].
  split; [by apply guarded_max_Permutation|].
  split; [by apply guarded_min_Permutation|].
  intros Hmean.
  destruct (tile_counts mask_files) as [|x l], (tile_counts mask_files') as [|y k];
    [done| | |].
  - by apply Permutation_nil_l in Hcounts.
  - by apply Permutation_nil_r in Hcounts.
  - f_equal. by apply Hmean.
Qed.

End StatsMore.

(** ** More on the rasteriser *)

Lemma bad_coordinate_raises_int (int_of_str : pystr -> result Z) (v : json) :
  bad_coordinate v = true -> raises (py_int int_of_str v).
Proof.
  destruct v as [| | |f| | |]; try discriminate; try (intros _; apply raises_Raise).
  destruct f; try discriminate; intros _; apply raises_Raise.
Qed.

Section RasterizerMore.

Variable int_of_str : pystr -> result Z.
Variable draw_polygon : image -> list (Z * Z) -> rgb -> rgb -> result image.

Local Abbreviation draw_shape := (draw_shape int_of_str draw_polygon).
Local Abbreviation create_mask_from_polygons :=
  (create_mask_from_polygons int_of_str draw_polygon).
Local Abbreviation point_of := (point_of int_of_str).

(** X6: a shape the rasteriser skips still uses up its index: a polygon
    after skipped shapes only is drawn on the black canvas with the colour
    of its own index in [shapes], not with the first colour. *)
Theorem skipped_shapes_use_up_colors (items : list (pystr * json))
    (before after : list json) (shape : json) (pts : list (Z * Z))
    (size : nat * nat) :
  dict_lookup items (py "shapes") = Some (JArr (before ++ shape :: after)) ->
  Forall (skipped_shape int_of_str) before ->
  shape_type_is shape (JStr (py "polygon")) ->
  shape_points_are int_of_str shape pts ->
  (3 <= length pts)%nat ->
  exists color,
    colors !! (length before mod 6)%nat = Some color /\
    create_mask_from_polygons (JObj items) size =
      (im ← draw_polygon (Image_new size black) pts color white;
       for_enumerate draw_shape (S (length before)) after im).
Proof.
  intros Hshapes Hskip Hst Hpts Hlen.
  rewrite (create_mask_of_shapes _ _ _ _ _ Hshapes), for_enumerate_app.
  rewrite for_enumerate_unchanged.
  - rewrite bind_Ok, Nat.add_0_l. cbn [for_enumerate].
    destruct (draw_shape_polygon int_of_str draw_polygon (length before) shape pts
                (Image_new size black) Hst Hpts) as (color & Hc & ->).
    exists color. split; [done|]. by rewrite bool_decide_eq_true_2.
  - eapply Forall_impl; [exact Hskip|]. intros s Hs j. by apply draw_shape_skipped.
Qed.

(** X7: the colours repeat with period 6: the loop body does the same at
    index [i + 6] as at index [i], on every shape and canvas. *)
Theorem palette_repeats_every_6 (i : nat) (shape : json) (im : image) :
  draw_shape (i + 6) shape im = draw_shape i shape im.
Proof.
  unfold draw_shape. change (length colors) with 6%nat.
  by rewrite <- (Nat.Div0.mod_add i 1 6), Nat.mul_1_l.
Qed.

Lemma draw_shape_keeps_size (i : nat) (shape : json) (im im' : image) :
  keeps_size draw_polygon ->
  draw_shape i shape im = Ok im' ->
  img_width im' = img_width im /\ img_height im' = img_height im.
Proof.
  intros Hkeep. unfold draw_shape.
  destruct (py_getitem shape (py "shape_type")) as [st|e]; [|discriminate].
  rewrite bind_Ok. destruct (py_eq_str st (py "polygon")); [|by intros [= <-]].
  destruct (py_getitem shape (py "points")) as [pv|e]; [|discriminate].
  rewrite bind_Ok.
  destruct (points_of int_of_str pv) as [pts|e]; [|discriminate].
  rewrite bind_Ok.
  destruct (py_index colors (i mod length colors)) as [color|e]; [|discriminate].
  rewrite bind_Ok. case_bool_decide; [apply Hkeep | by intros [= <-]].
Qed.

Lemma for_enumerate_keeps_size (shapes : list json) (i : nat) (im im' : image) :
  keeps_size draw_polygon ->
  for_enumerate draw_shape i shapes im = Ok im' ->
  img_width im' = img_width im /\ img_height im' = img_height im.
Proof.
  intros Hkeep. revert i im. induction shapes as [|shape shapes IH]; intros i im.
  - by intros [= <-].
  - cbn [for_enumerate].
    destruct (draw_shape i shape im) as [im1|e] eqn:Hstep; [|discriminate].
    rewrite bind_Ok. intros Hrest.
    destruct (draw_shape_keeps_size _ _ _ _ Hkeep Hstep) as [Hw Hh].
    destruct (IH _ _ Hrest) as [Hw' Hh']. split; congruence.
Qed.

(** X8: with a polygon routine that keeps the size of the image, every
    image the rasteriser returns has the requested width and height. *)
Theorem rasteriser_keeps_requested_size (mask_data : json) (size : nat * nat)
    (im : image) :
  keeps_size draw_polygon ->
  create_mask_from_polygons mask_data size = Ok im ->
  img_width im = size.1 /\ img_height im = size.2.
Proof.
  intros Hkeep. unfold create_mask_from_polygons.
  destruct (py_get mask_data (py "shapes") (JArr [])) as [v|e]; [|discriminate].
  rewrite bind_Ok. destruct (py_iter v) as [shapes|e]; [|discriminate].
  rewrite bind_Ok. intros Hloop.
  by destruct (for_enumerate_keeps_size _ _ _ _ Hkeep Hloop) as [-> ->].
Qed.

Lemma point_of_bad_coordinate (x y : json) :
  bad_coordinate x || bad_coordinate y = true -> raises (point_of (JArr [x; y])).
Proof.
  intros Hbad. unfold point_of, py_unpack2. cbn [py_iter]. rewrite !bind_Ok.
  destruct (bad_coordinate x) eqn:Hx.
  - by apply raises_bind, bad_coordinate_raises_int.
  - apply raises_bind_all. intros a. by apply raises_bind, bad_coordinate_raises_int.
Qed.

(** X9: a polygon with a point one of whose coordinates is [null], a list,
    an object, a NaN or an infinity makes the rasteriser raise, wherever the
    polygon stands in [shapes] and however many points it has. *)
Theorem bad_coordinate_raises (items sitems : list (pystr * json))
    (shapes entries : list json) (x y : json) (size : nat * nat) :
  dict_lookup items (py "shapes") = Some (JArr shapes) ->
  JObj sitems ∈ shapes ->
  dict_lookup sitems (py "shape_type") = Some (JStr (py "polygon")) ->
  dict_lookup sitems (py "points") = Some (JArr entries) ->
  JArr [x; y] ∈ entries ->
  bad_coordinate x || bad_coordinate y = true ->
  raises (create_mask_from_polygons (JObj items) size).
Proof.
  intros Hshapes Hin Hst Hpv Hentry Hbad.
  rewrite (create_mask_of_shapes _ _ _ _ _ Hshapes).
  apply (for_enumerate_raises _ _ (JObj sitems)); [done|].
  intros j t. unfold draw_shape, py_getitem.
  rewrite Hst, bind_Ok, py_eq_str_refl, Hpv, bind_Ok.
  apply raises_bind. unfold points_of. cbn [py_iter]. rewrite bind_Ok.
  apply (mapM_raises _ _ (JArr [x; y]) Hentry). by apply point_of_bad_coordinate.
Qed.

(** X10: shapes are drawn one after the other in the order of [shapes]:
    rasterising a list is rasterising a front part of it and going on,
    from the index reached, on the image that gave; so when the front part
    raises, the whole list raises. *)
Theorem rasterising_goes_front_to_back (items items1 : list (pystr * json))
    (front back : list json) (size : nat * nat) :
  dict_lookup items (py "shapes") = Some (JArr (front ++ back)) ->
  dict_lookup items1 (py "shapes") = Some (JArr front) ->
  create_mask_from_polygons (JObj items) size =
    (im ← create_mask_from_polygons (JObj items1) size;
     for_enumerate draw_shape (length front) back im) /\
  (raises (create_mask_from_polygons (JObj items1) size) ->
   raises (create_mask_from_polygons (JObj items) size)).
Proof.
  intros Hshapes Hfront.
  assert (create_mask_from_polygons (JObj items) size =
            (im ← create_mask_from_polygons (JObj items1) size;
             for_enumerate draw_shape (length front) back im)) as Heq.
  { rewrite (create_mask_of_shapes _ _ _ _ _ Hshapes),
      (create_mask_of_shapes _ _ _ _ _ Hfront).
    by rewrite for_enumerate_app, Nat.add_0_l. }
  split; [exact Heq|]. intros Hr. rewrite Heq. by apply raises_bind.
Qed.

End RasterizerMore.

(** ** More on the sample grid *)

Lemma shown_cells_app {P} (fig1 fig2 : figure P) :
  shown_cells (fig1 ++ fig2) = shown_cells fig1 ++ shown_cells fig2.
Proof. apply omap_app. Qed.

Lemma no_shapes_list_raises (mask_data : json) :
  no_shapes_list mask_data ->
  forall {A} (k : list json -> result A),
    raises (num_buildings_of mask_data) /\
    raises (shapes_v ← py_get mask_data (py "shapes") (JArr []);
            shapes ← py_iter shapes_v; k shapes).
Proof.
  intros [Hobj | (items & v & -> & Hv & Hsized)] A k; unfold num_buildings_of.
  - destruct mask_data; try (split; apply raises_Raise). by destruct (Hobj items).
  - unfold py_get. rewrite Hv. cbn [default]. rewrite !bind_Ok.
    destruct v; try discriminate; split; apply raises_Raise.
Qed.

Section VisualizerMore.

Variable int_of_str : pystr -> result Z.
Variable draw_polygon : image -> list (Z * Z) -> rgb -> rgb -> result image.
Variable path : Type.
Variable glob_json : string -> list path.
Variable read_text : path -> result pystr.
Variable json_loads : pystr -> result json.
Variable float : Type.
Variable np_mean : list Z -> float.
Variable draws : nat -> nat.

Local Abbreviation create_mask_from_polygons :=
  (create_mask_from_polygons int_of_str draw_polygon).
Local Abbreviation load_mask_data := (load_mask_data path read_text json_loads).
Local Abbreviation count_tile := (count_tile path read_text json_loads).
Local Abbreviation loads := (loads path read_text json_loads).
Local Abbreviation show_cell :=
  (show_cell int_of_str draw_polygon path read_text json_loads).
Local Abbreviation select_samples := (select_samples path draws).
Local Abbreviation analyze_dataset_stats :=
  (analyze_dataset_stats path glob_json read_text json_loads float np_mean).
Local Abbreviation visualize_sample_masks :=
  (visualize_sample_masks int_of_str draw_polygon path glob_json read_text json_loads draws).

(** Within the grid a cell shows its file once, in row [i / 3] and column
    [i mod 3]. *)
Lemma show_cell_placed (i : nat) (mask_file : path) (fig : figure path) :
  (i < 6)%nat ->
  exists calls,
    show_cell i mask_file fig = Ok (fig ++ calls) /\
    shown_files calls = [mask_file] /\
    shown_cells calls = [((i / 3)%nat, (i mod 3)%nat, mask_file)].
Proof.
  intros Hi.
  destruct (load_mask_data mask_file) as [mask_data|e] eqn:Hload.
  - destruct (create_mask_from_polygons mask_data default_image_size)
      as [im|e] eqn:Hmask.
    + destruct (num_buildings_of_rasterized _ _ _ _ _ Hmask) as [n Hn].
      eexists. split; [by eapply show_cell_rasterized|done].
    + eexists. split.
      * apply show_cell_failed; [done|].
        rewrite Hload, bind_Ok, Hmask. apply raises_Raise.
      * done.
  - eexists. split.
    + apply show_cell_failed; [done|]. rewrite Hload. apply raises_Raise.
    + done.
Qed.

Lemma show_cells_placed (sample_files : list path) (i : nat) (fig : figure path) :
  (i + length sample_files <= 6)%nat ->
  exists fig',
    for_enumerate show_cell i sample_files fig = Ok fig' /\
    shown_files fig' = shown_files fig ++ sample_files /\
    shown_cells fig' =
      shown_cells fig ++
      imap (fun j f => (((i + j) / 3)%nat, ((i + j) mod 3)%nat, f)) sample_files.
Proof.
  revert i fig. induction sample_files as [|f fs IH]; intros i fig Hlen.
  - exists fig. split; [done|]. by rewrite !app_nil_r.
  - simpl in Hlen. cbn [for_enumerate].
    destruct (show_cell_placed i f fig) as (calls & -> & Hfiles & Hcells); [lia|].
    rewrite bind_Ok.
    destruct (IH (S i) (fig ++ calls)) as (fig' & -> & Hfig' & Hcells'); [lia|].
    exists fig'. split; [done|]. split.
    + by rewrite Hfig', shown_files_app, Hfiles, <- app_assoc.
    + rewrite Hcells', shown_cells_app, Hcells, <- app_assoc.
      cbn [imap app]. rewrite Nat.add_0_r. do 2 f_equal.
      apply imap_ext. intros j x _. unfold compose. cbn beta.
      by replace (S i + j)%nat with (i + S j)%nat by lia.
Qed.

(** What the function does when the files it draws fit the grid. *)
Lemma visualize_within_grid (data_dir : string) (num_samples : Z) :
  glob_json data_dir <> [] ->
  0 <= num_samples ->
  Z.min num_samples (Z.of_nat (length (glob_json data_dir))) <= 6 ->
  exists sample_files rest fig,
    select_samples (glob_json data_dir) num_samples = Ok sample_files /\
    length sample_files =
      Nat.min (Z.to_nat num_samples) (length (glob_json data_dir)) /\
    sample_files ++ rest ≡ₚ glob_json data_dir /\
    visualize_sample_masks data_dir num_samples =
      Ok (Some fig, Some (Z.of_nat (length (glob_json data_dir)))) /\
    shown_files fig = sample_files /\
    shown_cells fig =
      imap (fun j f => ((j / 3)%nat, (j mod 3)%nat, f)) sample_files.
Proof.
  intros Hfiles Hnum Hgrid. set (mask_files := glob_json data_dir) in *.
  destruct (random_sample_spec draws mask_files
              (Z.min num_samples (Z.of_nat (length mask_files))))
    as (sample_files & rest & Hsel & Hlen & Hperm); [lia|].
  destruct (show_cells_placed sample_files 0 []) as (fig & Hloop & Hshown & Hcells);
    [lia|].
  exists sample_files, rest, fig.
  split; [exact Hsel|]. split; [lia|]. split; [exact Hperm|].
  split; [|split; [exact Hshown | exact Hcells]].
  unfold visualize_sample_masks. fold mask_files.
  destruct mask_files as [|f fs] eqn:Hmf; [done|]. cbn [py_bool_list negb].
  unfold select_samples. by rewrite Hsel, bind_Ok, Hloop.
Qed.

(** X11: a file that parses to something other than an object, or to an
    object whose [shapes] field is [null], a boolean or a number, is
    handled as a failed file by both functions: the statistics leave it out
    and its cell of the grid shows the error text. *)
Theorem record_without_shapes_list_fails (mask_file : path) (mask_data : json) :
  load_mask_data mask_file = Ok mask_data ->
  no_shapes_list mask_data ->
  raises (count_tile mask_file) /\
  loads mask_file = false /\
  forall i fig, (i < 6)%nat ->
    show_cell i mask_file fig =
      Ok (fig ++ [((i / 3)%nat, (i mod 3)%nat, TextError mask_file);
                  ((i / 3)%nat, (i mod 3)%nat, AxisOff)]).
Proof.
  intros Hload Hbad.
  assert (raises (count_tile mask_file)) as Hcount.
  { unfold count_tile. rewrite Hload, bind_Ok.
    by apply (no_shapes_list_raises mask_data Hbad (fun _ => Ok ())). }
  split; [exact Hcount|]. split.
  - unfold loads. by destruct Hcount as [e ->].
  - intros i fig Hi. apply show_cell_failed; [done|]. rewrite Hload, bind_Ok.
    apply (no_shapes_list_raises mask_data Hbad).
Qed.

(** X12: a file whose record has a malformed shape counts in the statistics
    with all its shapes, yet its cell of the grid shows the error text and
    no image. *)
Theorem counted_but_not_drawn (mask_file : path) (items : list (pystr * json))
    (shapes : list json) (shape : json) :
  load_mask_data mask_file = Ok (JObj items) ->
  dict_lookup items (py "shapes") = Some (JArr shapes) ->
  shape ∈ shapes ->
  lacks_shape_type shape \/ has_bad_point shape ->
  count_tile mask_file = Ok (Z.of_nat (length shapes)) /\
  loads mask_file = true /\
  forall i fig, (i < 6)%nat ->
    show_cell i mask_file fig =
      Ok (fig ++ [((i / 3)%nat, (i mod 3)%nat, TextError mask_file);
                  ((i / 3)%nat, (i mod 3)%nat, AxisOff)]).
Proof.
  intros Hload Hshapes Hin Hbad.
  assert (count_tile mask_file = Ok (Z.of_nat (length shapes))) as Hcount.
  { unfold count_tile. rewrite Hload, bind_Ok. by apply num_buildings_of_shapes. }
  split; [exact Hcount|]. split; [unfold loads; by rewrite Hcount|].
  intros i fig Hi. apply show_cell_failed; [done|]. rewrite Hload, bind_Ok.
  rewrite (create_mask_of_shapes _ _ _ _ _ Hshapes).
  apply (for_enumerate_raises _ _ shape); [done|].
  intros j t. destruct Hbad.
  - by apply draw_shape_lacks_type.
  - by apply draw_shape_bad_point.
Qed.

(** X15: the count [visualize_sample_masks] returns is the [total_tiles] of
    the statistics of the same directory. *)
Theorem returned_count_is_total_tiles (data_dir : string) (num_samples : Z)
    (s : stats float) (fig : option (figure path)) (n : Z) :
  analyze_dataset_stats data_dir = Ok s ->
  visualize_sample_masks data_dir num_samples = Ok (fig, Some n) ->
  n = total_tiles s.
Proof.
  unfold analyze_dataset_stats. rewrite stats_of_files_returns. intros [= <-].
  unfold visualize_sample_masks.
  destruct (glob_json data_dir) as [|f fs]; [discriminate|].
  cbn [py_bool_list negb].
  destruct (select_samples (f :: fs) num_samples) as [sample_files|e];
    [|discriminate].
  rewrite bind_Ok.
  destruct (for_enumerate show_cell 0 sample_files []) as [fig'|e]; [|discriminate].
  rewrite bind_Ok. by intros [= _ <-].
Qed.

(** X17: a request for at least as many files as there are, when these fit
    the grid, shows every file found exactly once. *)
Theorem request_covering_all_shows_all (data_dir : string) (num_samples : Z) :
  glob_json data_dir <> [] ->
  Z.of_nat (length (glob_json data_dir)) <= num_samples ->
  (length (glob_json data_dir) <= 6)%nat ->
  exists fig,
    visualize_sample_masks data_dir num_samples =
      Ok (Some fig, Some (Z.of_nat (length (glob_json data_dir)))) /\
    shown_files fig ≡ₚ glob_json data_dir.
Proof.
  intros Hfiles Hnum Hgrid.
  destruct (visualize_within_grid data_dir num_samples)
    as (sample_files & rest & fig & _ & Hlen & Hperm & Hvis & Hshown & _);
    [done | lia | lia |].
  exists fig. split; [exact Hvis|]. rewrite Hshown.
  assert (rest = []) as ->.
  { apply Permutation_length in Hperm. rewrite length_app in Hperm.
    apply length_zero_iff_nil. lia. }
  by rewrite app_nil_r in Hperm.
Qed.

(** X18: the function returns exactly when no file was found, or the
    requested count is not negative and the smaller of it and the number of
    files is at most 6; otherwise it raises. *)
Theorem returns_iff_within_grid (data_dir : string) (num_samples : Z) :
  (exists r, visualize_sample_masks data_dir num_samples = Ok r) <->
  glob_json data_dir = [] \/
  (0 <= num_samples /\
   Z.min num_samples (Z.of_nat (length (glob_json data_dir))) <= 6).
Proof.
  split.
  - intros [r Hr]. destruct (glob_json data_dir) as [|f fs] eqn:Hglob; [by left|].
    right. unfold visualize_sample_masks in Hr. rewrite Hglob in Hr.
    cbn [py_bool_list negb] in Hr. unfold select_samples in Hr.
    destruct (decide (num_samples < 0)) as [Hneg|Hpos].
    + rewrite random_sample_negative in Hr; [discriminate | lia].
    + split; [lia|].
      destruct (decide (Z.min num_samples (Z.of_nat (length (f :: fs))) <= 6))
        as [|Hbig]; [done|].
      destruct (random_sample_spec draws (f :: fs)
                  (Z.min num_samples (Z.of_nat (length (f :: fs)))))
        as (sample_files & rest & Hsel & Hlen & _); [lia|].
      rewrite Hsel, bind_Ok, show_cells_past_grid in Hr; [discriminate | lia | lia].
  - intros [Hglob | [Hnum Hgrid]].
    + exists (None, None). unfold visualize_sample_masks. by rewrite Hglob.
    + destruct (glob_json data_dir) as [|f fs] eqn:Hglob.
      * exists (None, None). unfold visualize_sample_masks. by rewrite Hglob.
      * destruct (visualize_within_grid data_dir num_samples)
          as (sample_files & rest & fig & _ & _ & _ & Hvis & _);
          [by rewrite Hglob | done | by rewrite Hglob |].
        eauto.
Qed.

(** X19: the files drawn fill the grid row by row: the file at position [j]
    of the sample is shown in row [j / 3] and column [j mod 3], once, and
    no other cell shows a file. *)
Theorem samples_fill_grid_by_rows (data_dir : string) (num_samples : Z) :
  glob_json data_dir <> [] ->
  0 <= num_samples ->
  Z.min num_samples (Z.of_nat (length (glob_json data_dir))) <= 6 ->
  exists sample_files fig n,
    select_samples (glob_json data_dir) num_samples = Ok sample_files /\
    visualize_sample_masks data_dir num_samples = Ok (Some fig, n) /\
    shown_cells fig =
      imap (fun j f => ((j / 3)%nat, (j mod 3)%nat, f)) sample_files.
Proof.
  intros Hfiles Hnum Hgrid.
  destruct (visualize_within_grid data_dir num_samples Hfiles Hnum Hgrid)
    as (sample_files & rest & fig & Hsel & _ & _ & Hvis & _ & Hcells).
  by exists sample_files, fig, (Some (Z.of_nat (length (glob_json data_dir)))).
Qed.

End VisualizerMore.

(** ** More example data *)

(** A second disk: file 0 holds a JSON list, file 1 a record whose [shapes]
    is [null], file 2 a record with a shape without [shape_type]; no other
    file parses. Every directory lists files 0 to 7. *)
Module Shelf.

Definition read_text (p : nat) : result pystr := Ok [N.of_nat p].

Definition json_loads (text : pystr) : result json :=
  match text with
  | [0%N] => Ok (JArr [])
  | [1%N] => Ok (JObj [(py "shapes", JNull)])
  | [2%N] => Ok (record_json [JObj [(py "points", JArr [])]])
  | _ => Raise ValueError
  end.

Definition glob_json (data_dir : string) : list nat := seq 0 8.

End Shelf.

(** ** The further statements at the example data *)

(** X2 at file 0 of ["./data"], with its 3 shapes. *)
Lemma tile_count_between_min_and_max_witness :
  count_tile nat Fixture.read_text Fixture.json_loads 0%nat = Ok 3 /\
  exists s,
    Fixture.analyze "./data" = Ok s /\
    min_buildings_per_tile s <= 3 <= max_buildings_per_tile s.
Proof.
  split; [reflexivity|].
  apply (tile_count_between_min_and_max nat Fixture.glob_json Fixture.read_text
           Fixture.json_loads QArith_base.Q Fixture.np_mean "./data" 0%nat 3).
  - vm_compute. by left.
  - reflexivity.
Defined.

(** X4 at ["./broken"], whose one file is not valid JSON. *)
Lemma no_file_loads_zero_aggregates_witness :
  Fixture.analyze "./broken" =
    Ok {| total_tiles := 1; total_buildings := 0; avg_buildings_per_tile := PyInt 0;
          max_buildings_per_tile := 0; min_buildings_per_tile := 0 |}.
Proof.
  apply (no_file_loads_zero_aggregates nat Fixture.glob_json Fixture.read_text
           Fixture.json_loads QArith_base.Q Fixture.np_mean "./broken").
  vm_compute. by repeat constructor.
Defined.

(** X5 at the two files of ["./data"], listed in both orders. *)
Lemma scan_order_irrelevant_witness :
  exists s s',
    Fixture.stats_of [0; 1]%nat = Ok s /\
    Fixture.stats_of [1; 0]%nat = Ok s' /\
    total_tiles s = total_tiles s' /\
    total_buildings s = total_buildings s' /\
    max_buildings_per_tile s = max_buildings_per_tile s' /\
    min_buildings_per_tile s = min_buildings_per_tile s' /\
    ((forall l k, l ≡ₚ k -> Fixture.np_mean l = Fixture.np_mean k) ->
       avg_buildings_per_tile s = avg_buildings_per_tile s').
Proof.
  apply (scan_order_irrelevant nat Fixture.read_text Fixture.json_loads
           QArith_base.Q Fixture.np_mean [0; 1]%nat [1; 0]%nat).
  apply perm_swap.
Defined.

(** X6 at a circle followed by a triangle: the triangle is filled with the
    second colour. *)
Lemma skipped_shapes_use_up_colors_witness :
  exists color,
    colors !! (1 mod 6)%nat = Some color /\
    Fixture.create_mask
      (record_json [shape_json "circle" Fixture.triangle; polygon_json Fixture.triangle])
      (2%nat, 1%nat) =
      (im ← Fixture.draw_polygon (Image_new (2%nat, 1%nat) black) Fixture.triangle
              color white;
       for_enumerate (draw_shape Fixture.int_of_str Fixture.draw_polygon) 2 [] im).
Proof.
  apply (skipped_shapes_use_up_colors Fixture.int_of_str Fixture.draw_polygon
           [(py "shapes",
             JArr [shape_json "circle" Fixture.triangle; polygon_json Fixture.triangle])]
           [shape_json "circle" Fixture.triangle] [] (polygon_json Fixture.triangle)
           Fixture.triangle (2%nat, 1%nat)).
  - reflexivity.
  - constructor; [|constructor]. eexists. split; [reflexivity|]. left. reflexivity.
  - reflexivity.
  - eexists. split; reflexivity.
  - simpl. lia.
Defined.

(** X8 at the stand-in rasteriser and [tile0]. *)
Lemma rasteriser_keeps_requested_size_witness :
  keeps_size Fixture.draw_polygon /\
  exists im,
    Fixture.create_mask Fixture.tile0 (2%nat, 1%nat) = Ok im /\
    img_width im = 2%nat /\ img_height im = 1%nat.
Proof.
  assert (keeps_size Fixture.draw_polygon) as Hkeep.
  { intros im pts fill outline im' [= <-]. split; reflexivity. }
  split; [exact Hkeep|]. eexists. split; [reflexivity|].
  apply (rasteriser_keeps_requested_size Fixture.int_of_str Fixture.draw_polygon
           Fixture.tile0 (2%nat, 1%nat) _ Hkeep).
  reflexivity.
Defined.

(** X9 at a polygon whose second point has [null] for its first coordinate. *)
Lemma bad_coordinate_raises_witness :
  raises (Fixture.create_mask
            (record_json [shape_json_raw "polygon"
                            [JArr [JInt 0; JInt 0]; JArr [JNull; JInt 1]]])
            default_image_size).
Proof.
  apply (bad_coordinate_raises Fixture.int_of_str Fixture.draw_polygon
           [(py "shapes",
             JArr [shape_json_raw "polygon"
                     [JArr [JInt 0; JInt 0]; JArr [JNull; JInt 1]]])]
           [(py "shape_type", JStr (py "polygon"));
            (py "points", JArr [JArr [JInt 0; JInt 0]; JArr [JNull; JInt 1]])]
           [shape_json_raw "polygon" [JArr [JInt 0; JInt 0]; JArr [JNull; JInt 1]]]
           [JArr [JInt 0; JInt 0]; JArr [JNull; JInt 1]] JNull (JInt 1)).
  - reflexivity.
  - constructor.
  - reflexivity.
  - reflexivity.
  - do 2 constructor.
  - reflexivity.
Defined.

(** X10 at [tile0], split after its first shape. *)
Lemma rasterising_goes_front_to_back_witness :
  Fixture.create_mask Fixture.tile0 (2%nat, 1%nat) =
    (im ← Fixture.create_mask (record_json [polygon_json Fixture.triangle])
            (2%nat, 1%nat);
     for_enumerate (draw_shape Fixture.int_of_str Fixture.draw_polygon) 1
       [shape_json "circle" Fixture.triangle; polygon_json Fixture.segment] im).
Proof.
  apply (rasterising_goes_front_to_back Fixture.int_of_str Fixture.draw_polygon
           [(py "shapes",
             JArr ([polygon_json Fixture.triangle] ++
                   [shape_json "circle" Fixture.triangle; polygon_json Fixture.segment]))]
           [(py "shapes", JArr [polygon_json Fixture.triangle])]
           [polygon_json Fixture.triangle]
           [shape_json "circle" Fixture.triangle; polygon_json Fixture.segment]
           (2%nat, 1%nat)); reflexivity.
Defined.

(** X11 at file 0 of the second disk, which holds a JSON list. *)
Lemma record_without_shapes_list_fails_witness :
  load_mask_data nat Shelf.read_text Shelf.json_loads 0%nat = Ok (JArr []) /\
  no_shapes_list (JArr []) /\
  raises (count_tile nat Shelf.read_text Shelf.json_loads 0%nat) /\
  loads nat Shelf.read_text Shelf.json_loads 0%nat = false.
Proof.
  assert (no_shapes_list (JArr [])) as Hbad by (left; discriminate).
  split; [reflexivity|]. split; [exact Hbad|].
  destruct (record_without_shapes_list_fails Fixture.int_of_str Fixture.draw_polygon
              nat Shelf.read_text Shelf.json_loads 0%nat (JArr []))
    as (Hcount & Hloads & _); [reflexivity | exact Hbad |].
  split; [exact Hcount | exact Hloads].
Defined.

(** X12 at file 2 of the second disk: one shape, without [shape_type]. *)
Lemma counted_but_not_drawn_witness :
  lacks_shape_type (JObj [(py "points", JArr [])]) /\
  count_tile nat Shelf.read_text Shelf.json_loads 2%nat = Ok 1 /\
  show_cell Fixture.int_of_str Fixture.draw_polygon nat Shelf.read_text
    Shelf.json_loads 4 2%nat [] =
    Ok [(1%nat, 1%nat, TextError 2%nat); (1%nat, 1%nat, AxisOff)].
Proof.
  assert (lacks_shape_type (JObj [(py "points", JArr [])])) as Hlacks.
  { eexists. split; reflexivity. }
  split; [exact Hlacks|].
  destruct (counted_but_not_drawn Fixture.int_of_str Fixture.draw_polygon
              nat Shelf.read_text Shelf.json_loads 2%nat
              [(py "shapes", JArr [JObj [(py "points", JArr [])]])]
              [JObj [(py "points", JArr [])]] (JObj [(py "points", JArr [])]))
    as (Hcount & _ & Hcell).
  - reflexivity.
  - reflexivity.
  - constructor.
  - left. exact Hlacks.
  - split; [exact Hcount|]. apply (Hcell 4%nat []). lia.
Defined.

(** X13 at a request for -1 files of ["./data"]. *)
Lemma negative_request_raises_witness :
  Fixture.visualize "./data" (-1) = Raise ValueError.
Proof.
  apply (negative_request_raises Fixture.int_of_str Fixture.draw_polygon nat
           Fixture.glob_json Fixture.read_text Fixture.json_loads Fixture.draws
           "./data" (-1)).
  - vm_compute. discriminate.
  - lia.
Defined.

(** X14 at a request for 7 of the 8 files of the second disk. *)
Lemma request_past_grid_raises_witness :
  visualize_sample_masks Fixture.int_of_str Fixture.draw_polygon nat
    Shelf.glob_json Shelf.read_text Shelf.json_loads Fixture.draws "./data" 7 =
    Raise IndexError.
Proof.
  apply (request_past_grid_raises Fixture.int_of_str Fixture.draw_polygon nat
           Shelf.glob_json Shelf.read_text Shelf.json_loads Fixture.draws "./data" 7).
  - lia.
  - vm_compute. lia.
Defined.

(** X17 and X19 at a request for 6 files of ["./data"], which has 2. *)
Lemma request_covering_all_shows_all_witness :
  exists fig,
    Fixture.visualize "./data" 6 = Ok (Some fig, Some 2) /\
    shown_files fig ≡ₚ [0; 1]%nat.
Proof.
  apply (request_covering_all_shows_all Fixture.int_of_str Fixture.draw_polygon nat
           Fixture.glob_json Fixture.read_text Fixture.json_loads Fixture.draws
           "./data" 6).
  - vm_compute. discriminate.
  - vm_compute. discriminate.
  - vm_compute. lia.
Defined.

Lemma samples_fill_grid_by_rows_witness :
  exists sample_files fig n,
    select_samples nat Fixture.draws (Fixture.glob_json "./data") 6 = Ok sample_files /\
    Fixture.visualize "./data" 6 = Ok (Some fig, n) /\
    shown_cells fig =
      imap (fun j f => ((j / 3)%nat, (j mod 3)%nat, f)) sample_files.
Proof.
  apply (samples_fill_grid_by_rows Fixture.int_of_str Fixture.draw_polygon nat
           Fixture.glob_json Fixture.read_text Fixture.json_loads Fixture.draws
           "./data" 6).
  - vm_compute. discriminate.
  - lia.
  - vm_compute. discriminate.
Defined.

(** X15 at ["./data"]: both functions report 2 files. *)
Lemma returned_count_is_total_tiles_witness :
  exists s fig,
    Fixture.analyze "./data" = Ok s /\
    Fixture.visualize "./data" 6 = Ok (Some fig, Some 2) /\
    2 = total_tiles s.
Proof.
  destruct (visualize_within_grid Fixture.int_of_str Fixture.draw_polygon nat
              Fixture.glob_json Fixture.read_text Fixture.json_loads Fixture.draws
              "./data" 6)
    as (sample_files & rest & fig & _ & _ & _ & Hvis & _).
  - vm_compute. discriminate.
  - lia.
  - vm_compute. discriminate.
  - eexists. exists fig. split; [reflexivity|]. split; [exact Hvis|].
    eapply (returned_count_is_total_tiles Fixture.int_of_str Fixture.draw_polygon nat
              Fixture.glob_json Fixture.read_text Fixture.json_loads QArith_base.Q
              Fixture.np_mean Fixture.draws "./data" 6).
    + reflexivity.
    + exact Hvis.
Defined.

(** ** Records in the format of the annotation files *)

Section FileFormat.

Variable int_of_str : pystr -> result Z.
Variable draw_polygon : image -> list (Z * Z) -> rgb -> rgb -> result image.

Local Abbreviation draw_shape := (draw_shape int_of_str draw_polygon).
Local Abbreviation create_mask_from_polygons :=
  (create_mask_from_polygons int_of_str draw_polygon).

(** Integer pairs written as the files write them are read back as they
    are, in their order. *)
Lemma mapM_cons_result {A B} (f : A -> result B) (x : A) (l : list A) :
  mapM f (x :: l) = (y ← f x; k ← mapM f l; mret (y :: k)).
Proof. reflexivity. Qed.

Lemma point_of_pair (x y : Z) :
  point_of int_of_str (JArr [JInt x; JInt y]) = Ok (x, y).
Proof. reflexivity. Qed.

Lemma points_of_pairs (pts : list (Z * Z)) :
  points_of int_of_str (JArr ((fun p => JArr [JInt p.1; JInt p.2]) <$> pts)) = Ok pts.
Proof.
  unfold points_of. cbn [py_iter]. rewrite bind_Ok.
  induction pts as [|[x y] pts IH]; [done|].
  rewrite fmap_cons, mapM_cons_result. cbn [fst snd].
  by rewrite point_of_pair, bind_Ok, IH.
Qed.

Lemma shape_json_points (shape_type : string) (pts : list (Z * Z)) :
  shape_points_are int_of_str (shape_json shape_type pts) pts.
Proof. eexists. split; [reflexivity | apply points_of_pairs]. Qed.

(** X20: on a polygon written as the files write it, with 3 integer points
    or more, the loop body makes one call of the polygon routine: on the
    canvas it was given, with exactly the points of the file in their order,
    the colour of the index and a white outline. *)
Theorem polygon_drawn_with_its_points (i : nat) (pts : list (Z * Z)) (im : image) :
  (3 <= length pts)%nat ->
  exists color,
    colors !! (i mod 6)%nat = Some color /\
    draw_shape i (polygon_json pts) im = draw_polygon im pts color white.
Proof.
  intros Hlen.
  destruct (draw_shape_polygon int_of_str draw_polygon i (polygon_json pts) pts im)
    as (color & Hc & Hstep); [reflexivity | apply shape_json_points |].
  exists color. split; [done|]. by rewrite Hstep, bool_decide_eq_true_2.
Qed.

Lemma draw_shape_returns (i : nat) (shape_type : string) (pts : list (Z * Z))
    (im : image) :
  (forall im pts fill outline, exists im', draw_polygon im pts fill outline = Ok im') ->
  exists im', draw_shape i (shape_json shape_type pts) im = Ok im'.
Proof.
  intros Htotal.
  destruct (py_eq_str (JStr (py shape_type)) (py "polygon")) eqn:Heq.
  - apply py_eq_str_true in Heq. injection Heq as Heq.
    destruct (draw_shape_polygon int_of_str draw_polygon i
                (shape_json shape_type pts) pts im)
      as (color & _ & ->).
    + unfold shape_type_is. cbn. by rewrite Heq.
    + apply shape_json_points.
    + case_bool_decide; [apply Htotal | by eexists].
  - exists im. by apply (draw_shape_other_type _ _ _ _ (JStr (py shape_type))).
Qed.

(** X21: when the polygon routine does not raise, the rasteriser does not
    raise on any record in the format of the files: shapes of whatever type
    with whatever number of integer points. *)
Theorem well_formed_record_rasterises (shapes : list (string * list (Z * Z)))
    (size : nat * nat) :
  (forall im pts fill outline, exists im', draw_polygon im pts fill outline = Ok im') ->
  exists im,
    create_mask_from_polygons
      (record_json ((fun s => shape_json s.1 s.2) <$> shapes)) size = Ok im.
Proof.
  intros Htotal. unfold record_json.
  rewrite (create_mask_of_shapes _ _ [(py "shapes", _)] _ size eq_refl).
  generalize 0%nat (Image_new size black).
  induction shapes as [|[shape_type pts] shapes IH]; intros i im; [by eexists|].
  cbn [fmap list_fmap for_enumerate fst snd].
  destruct (draw_shape_returns i shape_type pts im Htotal) as [im' ->].
  rewrite bind_Ok. apply IH.
Qed.

End FileFormat.

(** X20 at the triangle, as the fifth shape of a record. *)
Lemma polygon_drawn_with_its_points_witness :
  exists color,
    colors !! (4 mod 6)%nat = Some color /\
    draw_shape Fixture.int_of_str Fixture.draw_polygon 4 (polygon_json Fixture.triangle)
      (Image_new (2%nat, 1%nat) black) =
    Fixture.draw_polygon (Image_new (2%nat, 1%nat) black) Fixture.triangle color white.
Proof.
  apply (polygon_drawn_with_its_points Fixture.int_of_str Fixture.draw_polygon 4
           Fixture.triangle (Image_new (2%nat, 1%nat) black)).
  simpl. lia.
Defined.

(** X21 at the stand-in rasteriser and the three shapes of [tile0]. *)
Lemma well_formed_record_rasterises_witness :
  exists im,
    Fixture.create_mask
      (record_json ((fun s => shape_json s.1 s.2) <$>
         [("polygon"%string, Fixture.triangle); ("circle"%string, Fixture.triangle);
          ("polygon"%string, Fixture.segment)])) (2%nat, 1%nat) = Ok im.
Proof.
  apply (well_formed_record_rasterises Fixture.int_of_str Fixture.draw_polygon
           [("polygon"%string, Fixture.triangle); ("circle"%string, Fixture.triangle);
            ("polygon"%string, Fixture.segment)] (2%nat, 1%nat)).
  intros im pts fill outline. eexists. reflexivity.
Defined.

(** ** The functions with their prints *)

Section ConsoleProperties.

Variable int_of_str : pystr -> result Z.
Variable draw_polygon : image -> list (Z * Z) -> rgb -> rgb -> result image.
Variable path : Type.
Variable glob_json : string -> list path.
Variable read_text : path -> result pystr.
Variable json_loads : pystr -> result json.
Variable float : Type.
Variable np_mean : list Z -> float.
Variable draws : nat -> nat.
Variable print : console_line path float -> result ().
Variable pyplot : pyplot_call -> result ().

Local Abbreviation load_mask_data := (load_mask_data path read_text json_loads).
Local Abbreviation count_tile := (count_tile path read_text json_loads).
Local Abbreviation loads := (loads path read_text json_loads).
Local Abbreviation tally := (tally path read_text json_loads).
Local Abbreviation tile_counts := (tile_counts path read_text json_loads).
Local Abbreviation show_cell :=
  (show_cell int_of_str draw_polygon path read_text json_loads).
Local Abbreviation analyze_dataset_stats :=
  (analyze_dataset_stats path glob_json read_text json_loads float np_mean).
Local Abbreviation visualize_sample_masks :=
  (visualize_sample_masks int_of_str draw_polygon path glob_json read_text json_loads draws).
Local Abbreviation tally_console :=
  (tally_console path read_text json_loads float print).
Local Abbreviation analyze_dataset_stats_console :=
  (analyze_dataset_stats_console path glob_json read_text json_loads float np_mean print).
Local Abbreviation visualize_sample_masks_console :=
  (visualize_sample_masks_console int_of_str draw_polygon path glob_json read_text
     json_loads float draws print pyplot).
Local Abbreviation main_console :=
  (main_console int_of_str draw_polygon path glob_json read_text json_loads float
     np_mean draws print pyplot).

(** A console that accepts every line, and a figure whose calls return. *)
Definition console_accepts : Prop := forall line, print line = Ok ().
Definition pyplot_returns : Prop := forall call, pyplot call = Ok ().

Lemma tally_console_value (acc acc' : Z * list Z) (mask_file : path) :
  tally_console acc mask_file = Ok acc' -> acc' = tally acc mask_file.
Proof.
  unfold tally_console, tally. destruct (count_tile mask_file) as [n|e].
  - by intros [= <-].
  - destruct (print (ErrorLine mask_file e)) as [[]|e']; [|discriminate].
    rewrite bind_Ok. by intros [= <-].
Qed.

Lemma for_each_tally_console_value (mask_files : list path) (acc acc' : Z * list Z) :
  for_each tally_console mask_files acc = Ok acc' ->
  acc' = fold_left tally mask_files acc.
Proof.
  revert acc. induction mask_files as [|f fs IH]; intros acc.
  - by intros [= <-].
  - cbn [for_each fold_left].
    destruct (tally_console acc f) as [acc1|e] eqn:Hstep; [|discriminate].
    rewrite bind_Ok. apply tally_console_value in Hstep as ->. apply IH.
Qed.

Lemma for_each_tally_console_accepts (mask_files : list path) (acc : Z * list Z) :
  console_accepts ->
  for_each tally_console mask_files acc = Ok (fold_left tally mask_files acc).
Proof.
  intros Hprint. revert acc. induction mask_files as [|f fs IH]; intros acc; [done|].
  cbn [for_each fold_left].
  assert (tally_console acc f = Ok (tally acc f)) as ->; [|by rewrite bind_Ok].
  unfold tally_console, tally. destruct (count_tile f) as [n|e]; [done|].
  by rewrite Hprint.
Qed.

(** The last part of the function: the record from the final state. *)
Lemma stats_record_of_state (tiles : nat) (acc : Z * list Z) :
  (avg ← (if py_bool_list acc.2
          then Ok (PyFloat (np_mean acc.2)) else Ok (PyInt 0));
   mx ← (if py_bool_list acc.2 then py_max acc.2 else Ok 0);
   mn ← (if py_bool_list acc.2 then py_min acc.2 else Ok 0);
   mret {| total_tiles := Z.of_nat tiles;
           total_buildings := acc.1;
           avg_buildings_per_tile := avg;
           max_buildings_per_tile := mx;
           min_buildings_per_tile := mn |}) =
  Ok (stats_of_tally float np_mean tiles acc).
Proof. destruct acc as [total [|n per_tile]]; reflexivity. Qed.

Lemma analyze_console_value (data_dir : string) (s : stats float) :
  analyze_dataset_stats_console data_dir = Ok s ->
  analyze_dataset_stats data_dir = Ok s.
Proof.
  unfold analyze_dataset_stats_console, analyze_dataset_stats.
  rewrite stats_of_files_returns.
  destruct (print StatsHeading) as [[]|e]; [|discriminate]. rewrite bind_Ok.
  destruct (print (TileCountLine _)) as [[]|e]; [|discriminate]. rewrite bind_Ok.
  destruct (for_each tally_console (glob_json data_dir) (0, [])) as [acc|e] eqn:Hloop;
    [|discriminate].
  rewrite bind_Ok. apply for_each_tally_console_value in Hloop as <-.
  cbv zeta.
  match goal with
  | |- (?block ≫= _) = _ -> _ => destruct block as [[]|e]; [|discriminate]
  end.
  rewrite bind_Ok, stats_record_of_state. done.
Qed.

Lemma analyze_console_accepts (data_dir : string) :
  console_accepts ->
  analyze_dataset_stats_console data_dir = analyze_dataset_stats data_dir.
Proof.
  intros Hprint. unfold analyze_dataset_stats_console, analyze_dataset_stats.
  rewrite stats_of_files_returns, !Hprint, !bind_Ok.
  rewrite for_each_tally_console_accepts, bind_Ok by done. cbv zeta.
  rewrite <- stats_record_of_state.
  destruct (fold_left tally (glob_json data_dir) (0, [])) as [total [|n per_tile]];
    cbn [fst snd py_bool_list py_max py_min];
    by repeat (rewrite Hprint || rewrite bind_Ok).
Qed.

(** X1: whenever [analyze_dataset_stats] returns, whatever the files hold
    and whatever the console did with the lines: [total_tiles] is the number
    of files found, [total_buildings] the sum of the counts of the files
    that load, and the average, the maximum and the minimum are taken over
    exactly these counts, in the order of the scan (0 when there is none). *)
Theorem returned_statistics_of_loaded_counts (data_dir : string) (s : stats float) :
  analyze_dataset_stats_console data_dir = Ok s ->
  s = {| total_tiles := Z.of_nat (length (glob_json data_dir));
         total_buildings := sum_Z (tile_counts (glob_json data_dir));
         avg_buildings_per_tile :=
           match tile_counts (glob_json data_dir) with
           | [] => PyInt 0
           | counts => PyFloat (np_mean counts)
           end;
         max_buildings_per_tile :=
           match tile_counts (glob_json data_dir) with
           | [] => 0
           | x :: rest => fold_left Z.max rest x
           end;
         min_buildings_per_tile :=
           match tile_counts (glob_json data_dir) with
           | [] => 0
           | x :: rest => fold_left Z.min rest x
           end |}.
Proof.
  intros Hs%analyze_console_value.
  rewrite statistics_of_loaded_counts in Hs. by injection Hs as <-.
Qed.

(** X23: when the console accepts every line, [analyze_dataset_stats]
    returns for every directory, whatever its files hold, and returns what
    the function without its prints computes. *)
Theorem statistics_return_when_console_accepts (data_dir : string) :
  console_accepts ->
  exists s,
    analyze_dataset_stats_console data_dir = Ok s /\
    analyze_dataset_stats data_dir = Ok s.
Proof.
  intros Hprint. rewrite analyze_console_accepts by done.
  unfold analyze_dataset_stats. rewrite stats_of_files_returns. by eexists.
Qed.

Lemma for_each_tally_console_loaded (mask_files : list path) (acc : Z * list Z) :
  Forall (fun g => loads g = true) mask_files ->
  for_each tally_console mask_files acc = Ok (fold_left tally mask_files acc).
Proof.
  intros Hall. revert acc. induction Hall as [|f fs Hf _ IH]; intros acc; [done|].
  cbn [for_each fold_left].
  assert (tally_console acc f = Ok (tally acc f)) as ->; [|by rewrite bind_Ok].
  unfold tally_console, tally. unfold loads in Hf.
  by destruct (count_tile f).
Qed.

Lemma for_each_app {A St} (body : St -> A -> result St) (l1 l2 : list A) (s : St) :
  for_each body (l1 ++ l2) s = for_each body l1 s ≫= for_each body l2.
Proof.
  revert s. induction l1 as [|x l1 IH]; intros s; [done|].
  cbn [app for_each]. destruct (body s x) as [s'|e]; [|done].
  rewrite !bind_Ok. apply IH.
Qed.

(** X24: the handler of the statistics loop prints outside any [try]: when
    the first file that does not load has an error line the console refuses,
    the exception of that [print] ends [analyze_dataset_stats], and no
    statistics are returned. *)
Theorem refused_error_line_ends_statistics (data_dir : string)
    (before after : list path) (mask_file : path) (e e' : pyexc) :
  glob_json data_dir = before ++ mask_file :: after ->
  Forall (fun g => loads g = true) before ->
  count_tile mask_file = Raise e ->
  print StatsHeading = Ok () ->
  print (TileCountLine (Z.of_nat (length (glob_json data_dir)))) = Ok () ->
  print (ErrorLine mask_file e) = Raise e' ->
  analyze_dataset_stats_console data_dir = Raise e'.
Proof.
  intros Hglob Hbefore Hcount Hheading Htiles Herror.
  unfold analyze_dataset_stats_console. rewrite Hheading, Htiles, !bind_Ok.
  rewrite Hglob, for_each_app, for_each_tally_console_loaded, bind_Ok by done.
  cbn [for_each].
  assert (forall acc, tally_console acc mask_file = Raise e') as ->; [|done].
  intros acc. unfold tally_console. by rewrite Hcount, Herror.
Qed.

(** X22: a file that cannot be read, or whose text does not parse, makes
    [load_mask_data] raise. The loop of the statistics then prints its error
    line and, if that returns, goes on from the state it had; the cell of
    the grid shows the error text. *)
Theorem failed_load_is_reported (mask_file : path) :
  raises (read_text mask_file) \/
  (exists text, read_text mask_file = Ok text /\ raises (json_loads text)) ->
  exists e,
    load_mask_data mask_file = Raise e /\
    (forall acc,
       tally_console acc mask_file = (print (ErrorLine mask_file e);; Ok acc)) /\
    forall i fig, (i < 6)%nat ->
      show_cell i mask_file fig =
        Ok (fig ++ [((i / 3)%nat, (i mod 3)%nat, TextError mask_file);
                    ((i / 3)%nat, (i mod 3)%nat, AxisOff)]).
Proof.
  intros Hfail.
  assert (raises (load_mask_data mask_file)) as [e Hload].
  { unfold load_mask_data. destruct Hfail as [Hread | (text & -> & Hparse)].
    - by apply raises_bind.
    - by rewrite bind_Ok. }
  exists e. split; [exact Hload|]. split.
  - intros acc. unfold tally_console, count_tile. by rewrite Hload.
  - intros i fig Hi. apply show_cell_failed; [done|]. rewrite Hload. apply raises_Raise.
Qed.

Lemma visualize_console_accepts (data_dir : string) (num_samples : Z) :
  console_accepts -> pyplot_returns ->
  visualize_sample_masks_console data_dir num_samples =
  visualize_sample_masks data_dir num_samples.
Proof.
  intros Hprint Hplot.
  unfold visualize_sample_masks_console, visualize_sample_masks.
  destruct (glob_json data_dir) as [|f fs]; cbn [py_bool_list negb].
  - by rewrite Hprint.
  - destruct (select_samples path draws (f :: fs) num_samples) as [sample_files|e];
      [|done].
    rewrite !bind_Ok, !Hplot, !bind_Ok.
    destruct (for_enumerate show_cell 0 sample_files []) as [fig|e]; [|done].
    by rewrite !bind_Ok.
Qed.

(** X16: when the console accepts every line and the calls on the figure
    return, [main] returns, whatever the data directory holds: it computes
    the statistics of ["./data"], and the number its closing line prints is
    [None] when no file was found and the number of files, which is
    [total_tiles], otherwise. *)
Theorem main_returns_when_console_accepts :
  console_accepts -> pyplot_returns ->
  exists s,
    analyze_dataset_stats "./data" = Ok s /\
    total_tiles s = Z.of_nat (length (glob_json "./data")) /\
    main_console =
      Ok (s, match glob_json "./data" with
             | [] => None
             | _ => Some (total_tiles s)
             end).
Proof.
  intros Hprint Hplot. unfold main_console.
  rewrite !Hprint, !bind_Ok. cbv zeta.
  rewrite analyze_console_accepts, visualize_console_accepts by done.
  unfold analyze_dataset_stats. rewrite stats_of_files_returns.
  eexists. split; [done|]. split; [done|]. rewrite bind_Ok.
  destruct (glob_json "./data") as [|f fs] eqn:Hglob.
  - unfold visualize_sample_masks. rewrite Hglob. cbn [py_bool_list negb].
    by rewrite bind_Ok, Hprint.
  - destruct (visualize_within_grid int_of_str draw_polygon path glob_json read_text
                json_loads draws "./data" 6)
      as (sample_files & rest & fig & _ & _ & _ & Hvis & _);
      [by rewrite Hglob | lia | lia |].
    rewrite Hvis, Hglob, bind_Ok. cbn [snd]. by rewrite Hprint.
Qed.

End ConsoleProperties.

(** Two consoles and a figure for the example disks: [quiet] accepts every
    line, [strict] refuses the error lines, and the calls on the figure
    return. *)
Module Terminal.

Definition quiet (line : console_line nat QArith_base.Q) : result () := Ok ().

Definition strict (line : console_line nat QArith_base.Q) : result () :=
  match line with
  | ErrorLine _ _ => Raise (OtherException "UnicodeEncodeError")
  | _ => Ok ()
  end.

Definition pyplot (call : pyplot_call) : result () := Ok ().

Definition analyze (print : console_line nat QArith_base.Q -> result ())
    (data_dir : string) : result (stats QArith_base.Q) :=
  analyze_dataset_stats_console nat Fixture.glob_json Fixture.read_text
    Fixture.json_loads QArith_base.Q Fixture.np_mean print data_dir.

End Terminal.

(** X1 at ["./data"] on the quiet console. *)
Lemma returned_statistics_of_loaded_counts_witness :
  exists s,
    Terminal.analyze Terminal.quiet "./data" = Ok s /\
    total_buildings s =
      sum_Z (tile_counts nat Fixture.read_text Fixture.json_loads
               (Fixture.glob_json "./data")) /\
    total_buildings s = 3.
Proof.
  eexists. split; [reflexivity|]. split; [|reflexivity].
  exact (f_equal total_buildings
           (returned_statistics_of_loaded_counts nat Fixture.glob_json
              Fixture.read_text Fixture.json_loads QArith_base.Q Fixture.np_mean
              Terminal.quiet "./data" _ eq_refl)).
Defined.

(** X23 at ["./broken"] on the quiet console. *)
Lemma statistics_return_when_console_accepts_witness :
  console_accepts nat QArith_base.Q Terminal.quiet /\
  exists s,
    Terminal.analyze Terminal.quiet "./broken" = Ok s /\
    Fixture.analyze "./broken" = Ok s.
Proof.
  assert (console_accepts nat QArith_base.Q Terminal.quiet) as Hprint
    by (intros line; reflexivity).
  split; [exact Hprint|].
  exact (statistics_return_when_console_accepts nat Fixture.glob_json
           Fixture.read_text Fixture.json_loads QArith_base.Q Fixture.np_mean
           Terminal.quiet "./broken" Hprint).
Defined.

(** X24 at ["./broken"] on the strict console: the one file does not parse
    and its error line is refused. *)
Lemma refused_error_line_ends_statistics_witness :
  count_tile nat Fixture.read_text Fixture.json_loads 2%nat = Raise ValueError /\
  Terminal.strict (ErrorLine 2%nat ValueError) =
    Raise (OtherException "UnicodeEncodeError") /\
  Terminal.analyze Terminal.strict "./broken" =
    Raise (OtherException "UnicodeEncodeError").
Proof.
  split; [reflexivity|]. split; [reflexivity|].
  apply (refused_error_line_ends_statistics nat Fixture.glob_json Fixture.read_text
           Fixture.json_loads QArith_base.Q Fixture.np_mean Terminal.strict
           "./broken" [] [] 2%nat ValueError (OtherException "UnicodeEncodeError"));
    try reflexivity.
  constructor.
Defined.

(** X22 at file 2 of the first disk, whose text is not valid JSON. *)
Lemma failed_load_is_reported_witness :
  exists e,
    load_mask_data nat Fixture.read_text Fixture.json_loads 2%nat = Raise e /\
    tally_console nat Fixture.read_text Fixture.json_loads QArith_base.Q
      Terminal.quiet (5, [5]) 2%nat = Ok (5, [5]) /\
    show_cell Fixture.int_of_str Fixture.draw_polygon nat Fixture.read_text
      Fixture.json_loads 0 2%nat [] =
      Ok [(0%nat, 0%nat, TextError 2%nat); (0%nat, 0%nat, AxisOff)].
Proof.
  destruct (failed_load_is_reported Fixture.int_of_str Fixture.draw_polygon nat
              Fixture.read_text Fixture.json_loads QArith_base.Q Terminal.quiet 2%nat)
    as (e & Hload & Htally & Hcell).
  - right. eexists. split; [reflexivity|]. vm_compute. by eexists.
  - exists e. split; [exact Hload|]. split.
    + rewrite Htally. reflexivity.
    + apply (Hcell 0%nat []). lia.
Defined.

(** X16 at the first disk, on the quiet console. *)
Lemma main_returns_when_console_accepts_witness :
  console_accepts nat QArith_base.Q Terminal.quiet /\
  pyplot_returns Terminal.pyplot /\
  exists s,
    Fixture.analyze "./data" = Ok s /\
    total_tiles s = 2 /\
    main_console Fixture.int_of_str Fixture.draw_polygon nat Fixture.glob_json
      Fixture.read_text Fixture.json_loads QArith_base.Q Fixture.np_mean
      Fixture.draws Terminal.quiet Terminal.pyplot =
      Ok (s, Some (total_tiles s)).
Proof.
  assert (console_accepts nat QArith_base.Q Terminal.quiet) as Hprint
    by (intros line; reflexivity).
  assert (pyplot_returns Terminal.pyplot) as Hplot by (intros call; reflexivity).
  split; [exact Hprint|]. split; [exact Hplot|].
  exact (main_returns_when_console_accepts Fixture.int_of_str Fixture.draw_polygon
           nat Fixture.glob_json Fixture.read_text Fixture.json_loads QArith_base.Q
           Fixture.np_mean Fixture.draws Terminal.quiet Terminal.pyplot Hprint Hplot).
Defined.

